(** * The number verification and retry tracking engine of [bot.py]

    A shallow embedding of the engine part of [src/bot.py]: the phone
    normaliser ([WhatsAppChecker.clean_phone_number]), the checker
    ([check_number], [_check_with_api]), the ledger ([DataStore],
    [update_status]), the batch loop of [set_retry_and_check], and the
    filter and export pipeline of [export_results]; further the extraction
    of numbers in [process_numbers], the progress messages of the batch,
    what [button_handler] writes into the user data, and the numbers of
    [show_status].

    Python strings are lists of Unicode code points, the ledger is a finite
    map, and the effects of the program (the ledger, the file [data.json],
    the readings of [datetime.now()], the calls made to the backend) are
    threaded through a state-and-exception monad. *)

From Stdlib Require Import ZArith NArith List Bool Ascii String Lia.
From stdpp Require Import base gmap list strings.

Local Open Scope Z_scope.

(** ** Python strings *)

(** A [str] is a sequence of code points. *)
Abbreviation char := N (only parsing).
Abbreviation str := (list N) (only parsing).

(** An ASCII literal as a [str]. *)
Definition py (s : string) : str :=
  List.map N_of_ascii (list_ascii_of_string s).

(** [str.isspace] on one code point: the Unicode white space of CPython. *)
Definition isspace (c : char) : bool :=
  ((9 <=? c) && (c <=? 13) || (28 <=? c) && (c <=? 32)
   || (c =? 133) || (c =? 160) || (c =? 5760)
   || (8192 <=? c) && (c <=? 8202)
   || (c =? 8232) || (c =? 8233) || (c =? 8239) || (c =? 8287)
   || (c =? 12288))%N.

(** [s.startswith(prefix)] *)
Fixpoint startswith (s prefix : str) {struct prefix} : bool :=
  match prefix, s with
  | [], _ => true
  | p :: prefix', c :: s' => (c =? p)%N && startswith s' prefix'
  | _ :: _, [] => false
  end.

Fixpoint lstrip (s : str) : str :=
  match s with
  | [] => []
  | c :: s' => if isspace c then lstrip s' else s
  end.

Definition rstrip (s : str) : str := rev (lstrip (rev s)).

(** [s.strip()] *)
Definition strip (s : str) : str := rstrip (lstrip s).

(** [s.split(sep)] for a one-character separator: never an empty list. *)
Fixpoint split (sep : char) (s : str) : list str :=
  match s with
  | [] => [[]]
  | c :: s' =>
      if (c =? sep)%N then [] :: split sep s'
      else match split sep s' with
           | [] => [[c]]
           | part :: parts => (c :: part) :: parts
           end
  end.

(** Truth value of an optional string: [None] and [''] are false. *)
Definition truthy (s : option str) : bool :=
  match s with
  | None | Some [] => false
  | Some (_ :: _) => true
  end.

(** ** Data model *)

(** The four status strings of the program. *)
Inductive VerificationStatus :=
  | on_whatsapp
  | not_on_whatsapp
  | invalid
  | error.

#[global] Instance VerificationStatus_eq_dec : EqDecision VerificationStatus.
Proof. solve_decision. Defined.

(** Comparison of two status strings, [==]. *)
Definition status_eqb (a b : VerificationStatus) : bool :=
  match a, b with
  | on_whatsapp, on_whatsapp
  | not_on_whatsapp, not_on_whatsapp
  | invalid, invalid
  | error, error => true
  | _, _ => false
  end.

(** A [datetime] counts microseconds; [timedelta(hours=h)] is [h] hours of
    them.  [strftime('%Y-%m-%d %H:%M:%S')] drops the microseconds, and
    [isoformat()] keeps them. *)
Abbreviation datetime := Z (only parsing).

Definition timedelta_hours (h : Z) : Z := h * 3600000000.

Definition strftime_seconds (t : datetime) : datetime := 1000000 * (t / 1000000).

(** A value of [store.checked_numbers]. *)
Record StatusRecord := {
  rec_status : VerificationStatus;
  last_check : datetime;
  rec_next_retry : option datetime;
  attempts : Z
}.

(** A value of [store.user_data]. *)
Record UserRecord := {
  user_last_check : datetime;
  total_checked : Z
}.

(** One element of [results]: the key ['next_retry'] may be missing. *)
Record CheckResult := {
  phone : str;
  status : VerificationStatus;
  check_time : datetime;
  next_retry : option datetime
}.

(** Python exceptions that occur in the engine. *)
Inductive exn :=
  | FileNotFoundError
  | JSONDecodeError
  | AttributeError
  | IndexError
  | ImportError
  | RuntimeError.

Definition exn_eqb (a b : exn) : bool :=
  match a, b with
  | FileNotFoundError, FileNotFoundError
  | JSONDecodeError, JSONDecodeError
  | AttributeError, AttributeError
  | IndexError, IndexError
  | ImportError, ImportError
  | RuntimeError, RuntimeError => true
  | _, _ => false
  end.

(** The document in [data.json], as [json.load] sees it. *)
Inductive Json :=
  | JObject (checked : option (gmap (list N) StatusRecord))
            (users : option (gmap Z UserRecord))
  | JOther.

Inductive Content :=
  | Garbled (raw : str)
  | Parsed (doc : Json).

(** ** The state of the process *)

Record World := {
  checked_numbers : gmap (list N) StatusRecord;
  user_data : gmap Z UserRecord;
  data_json : option Content;
  clock : nat;
  calls : list (list N);
  saves : nat
}.

Definition initial (file : option Content) : World :=
  {| checked_numbers := ∅; user_data := ∅; data_json := file;
     clock := 0%nat; calls := []; saves := 0%nat |}.

Definition set_checked_numbers (m : gmap (list N) StatusRecord) (w : World) : World :=
  {| checked_numbers := m; user_data := user_data w; data_json := data_json w;
     clock := clock w; calls := calls w; saves := saves w |}.

Definition set_user_data (m : gmap Z UserRecord) (w : World) : World :=
  {| checked_numbers := checked_numbers w; user_data := m; data_json := data_json w;
     clock := clock w; calls := calls w; saves := saves w |}.

Definition write_data_json (c : Content) (w : World) : World :=
  {| checked_numbers := checked_numbers w; user_data := user_data w;
     data_json := Some c;
     clock := clock w; calls := calls w; saves := S (saves w) |}.

Definition tick (w : World) : World :=
  {| checked_numbers := checked_numbers w; user_data := user_data w;
     data_json := data_json w;
     clock := S (clock w); calls := calls w; saves := saves w |}.

Definition log_call (number : str) (w : World) : World :=
  {| checked_numbers := checked_numbers w; user_data := user_data w;
     data_json := data_json w;
     clock := clock w; calls := calls w ++ [number]; saves := saves w |}.

(** ** State and exceptions *)

Inductive Outcome (A : Type) :=
  | Return (a : A)
  | Raise (e : exn).
Arguments Return {A} a.
Arguments Raise {A} e.

Definition M (A : Type) : Type := World -> Outcome A * World.

Definition ret {A} (a : A) : M A := fun w => (Return a, w).

Definition raise {A} (e : exn) : M A := fun w => (Raise e, w).

Definition bind {A B} (m : M A) (k : A -> M B) : M B :=
  fun w =>
    match m w with
    | (Return a, w') => k a w'
    | (Raise e, w') => (Raise e, w')
    end.

(** [try: body except <classes>: handler] *)
Definition try_except {A} (body : M A) (catches : exn -> bool) (handler : exn -> M A) : M A :=
  fun w =>
    match body w with
    | (Return a, w') => (Return a, w')
    | (Raise e, w') => if catches e then handler e w' else (Raise e, w')
    end.

Definition modify (f : World -> World) : M unit := fun w => (Return tt, f w).

Definition gets {A} (f : World -> A) : M A := fun w => (Return (f w), w).

Notation "'let!' x ':=' m 'in' k" := (bind m (fun x => k))
  (at level 10, x name, m at level 100, k at level 200, only parsing).
Notation "'do!' m 'in' k" := (bind m (fun _ => k))
  (at level 10, m at level 100, k at level 200, only parsing).

(** ** DataStore: [save_to_file] and [load_from_file] *)

(** [json.dump] of both maps into [data.json]; the write is taken to
    succeed. *)
Definition save_to_file : M unit :=
  modify (fun w =>
    write_data_json
      (Parsed (JObject (Some (checked_numbers w)) (Some (user_data w)))) w).

(** [open(filename, 'r')] *)
Definition open_read : M Content :=
  fun w =>
    match data_json w with
    | None => (Raise FileNotFoundError, w)
    | Some f => (Return f, w)
    end.

(** [json.load(f)] *)
Definition json_load (f : Content) : M Json :=
  match f with
  | Garbled _ => raise JSONDecodeError
  | Parsed data => ret data
  end.

(** [data.get('checked_numbers', {})]: a document that is not an object
    has no [get]. *)
Definition get_checked_numbers (data : Json) : M (gmap (list N) StatusRecord) :=
  match data with
  | JObject checked _ => ret (default ∅ checked)
  | JOther => raise AttributeError
  end.

Definition get_user_data (data : Json) : M (gmap Z UserRecord) :=
  match data with
  | JObject _ users => ret (default ∅ users)
  | JOther => raise AttributeError
  end.

Definition load_from_file : M unit :=
  try_except
    (let! f := open_read in
     let! data := json_load f in
     let! checked := get_checked_numbers data in
     do! modify (set_checked_numbers checked) in
     let! users := get_user_data data in
     modify (set_user_data users))
    (exn_eqb FileNotFoundError)
    (fun _ => ret tt).

(** Module initialisation: [store = DataStore()], [store.load_from_file()]. *)
Definition startup (file : option Content) : Outcome unit * World :=
  load_from_file (initial file).

(** ** Exporter: [pd.DataFrame(results)] and [to_csv(index=False)] *)

Inductive Value :=
  | VStr (s : str)
  | VStatus (s : VerificationStatus)
  | VTime (t : datetime).

(** A result as the [dict] it is, in insertion order. *)
Definition to_dict (r : CheckResult) : list (string * Value) :=
  [("phone"%string, VStr (phone r));
   ("status"%string, VStatus (status r));
   ("check_time"%string, VTime (check_time r))]
  ++ match next_retry r with
     | Some t => [("next_retry"%string, VTime t)]
     | None => []
     end.

Fixpoint dict_get (key : string) (d : list (string * Value)) : option Value :=
  match d with
  | [] => None
  | (k, v) :: d' => if String.eqb k key then Some v else dict_get key d'
  end.

Record Table := {
  columns : list string;
  rows : list (list (option Value))
}.

(** Keys of [d] not yet among [cols] are appended, in the order of [d]. *)
Definition add_keys (cols : list string) (d : list (string * Value)) : list string :=
  fold_left
    (fun cols kv => if existsb (String.eqb (fst kv)) cols then cols else cols ++ [fst kv])
    d cols.

(** [pd.DataFrame] on a list of dicts: the columns are the keys in order of
    first appearance, and a key missing from a dict leaves its cell empty. *)
Definition DataFrame (data : list (list (string * Value))) : Table :=
  let cols := fold_left add_keys data [] in
  {| columns := cols;
     rows := List.map (fun d => List.map (fun c => dict_get c d) cols) data |}.

(** The CSV text, as its header line and its record lines; an empty cell
    is [None]. *)
Record Csv := {
  header : list string;
  records : list (list (option Value))
}.

Definition to_csv (df : Table) : Csv :=
  {| header := columns df; records := rows df |}.

(** ** The runtime the engine runs on *)

Inductive api_result :=
  | Answer (s : VerificationStatus)
  | Fails (e : exn).

(** What the engine takes from outside the repository: the Unicode digit
    table behind [str.isdigit], the exception [import pywhatkit] raises if
    any ([ImportError] when the package is not installed), the body of the
    replaceable method [_check_with_api], and the successive readings of
    [datetime.now()]. *)
Record Runtime := {
  isdigit : N -> bool;
  pywhatkit : option exn;
  backend : list N -> api_result;
  now : nat -> Z
}.

(** The shipped body of [_check_with_api]: the last character decides. *)
Definition _check_with_api (phone : str) : api_result :=
  match last phone with
  | None => Fails IndexError
  | Some last_digit =>
      if existsb (N.eqb last_digit) (py "02468") then Answer on_whatsapp
      else Answer not_on_whatsapp
  end.

(** [str.isdigit] restricted to ASCII, where only [0]..[9] are digits. *)
Definition isdigit_ascii (c : char) : bool := ((48 <=? c) && (c <=? 57))%N.

Section Engine.

Variable R : Runtime.

(** ** PhoneNormalizer: [clean_phone_number] *)

Definition keep (c : char) : bool := isdigit R c || (c =? 43)%N.

(** The value of the local variable [digits] at the [return]. *)
Definition digits (phone : str) : str :=
  let phone := strip phone in
  let phone :=
    if startswith phone (py "0") then py "+234" ++ List.tl phone
    else if startswith phone (py "234") then py "+" ++ phone
    else if negb (startswith phone (py "+")) then py "+" ++ phone
    else phone in
  List.filter keep phone.

(** The [except] branch, which returns [None], is not reachable for a
    [str] argument: no operation of the body raises on a string. *)
Definition clean_phone_number (phone : str) : option str :=
  Some (digits phone).

(** ** VerificationClient: [check_number] *)

Definition datetime_now : M Z :=
  fun w => (Return (now R (clock w)), tick w).

Definition import_pywhatkit : M unit :=
  match pywhatkit R with
  | None => ret tt
  | Some e => raise e
  end.

Definition call_check_with_api (phone : str) : M VerificationStatus :=
  fun w =>
    match backend R phone with
    | Answer s => (Return s, log_call phone w)
    | Fails e => (Raise e, log_call phone w)
    end.

Definition check_number (phone_number : str) : M VerificationStatus :=
  try_except
    (let clean_phone := clean_phone_number phone_number in
     if negb (truthy clean_phone) then ret invalid
     else
       let clean_phone := default [] clean_phone in
       try_except
         (do! import_pywhatkit in call_check_with_api clean_phone)
         (exn_eqb ImportError)
         (fun _ => call_check_with_api clean_phone))
    (fun _ => true)
    (fun _ => ret error).

(** ** StatusStore: [update_status] *)

Definition update_status (phone : str) (status : VerificationStatus)
    (retry_hours : Z) : M unit :=
  let! now := datetime_now in
  let next_retry :=
    if status_eqb status not_on_whatsapp
    then Some (now + timedelta_hours retry_hours)
    else None in
  let! store := gets checked_numbers in
  let previous :=
    match store !! phone with
    | Some r => attempts r
    | None => 0
    end in
  do! modify (set_checked_numbers
        (<[phone := {| rec_status := status;
                       last_check := now;
                       rec_next_retry := next_retry;
                       attempts := previous + 1 |}]> store)) in
  let! store := gets checked_numbers in
  if (size store mod 10 =? 0)%nat then save_to_file else ret tt.

(** ** The transport's extraction of numbers: [process_numbers] *)

Definition extract_numbers (numbers_text : str) : list str :=
  flat_map
    (fun line =>
       List.filter
         (fun part => truthy (Some part) && existsb (isdigit R) part)
         (List.map strip (split 44 line)))
    (split 10 numbers_text).

(** ** BatchRunner: the loop of [set_retry_and_check] *)

Definition with_next_retry (t : datetime) (r : CheckResult) : CheckResult :=
  {| phone := phone r; status := status r; check_time := check_time r;
     next_retry := Some t |}.

(** One turn of the loop, without the progress message and the sleep. *)
Definition check_item (retry_hours : Z) (number : str) : M CheckResult :=
  let! status := check_number number in
  do! update_status number status retry_hours in
  let clean_num :=
    let c := clean_phone_number number in
    if truthy c then default [] c else number in
  let! t := datetime_now in
  let result :=
    {| phone := clean_num; status := status;
       check_time := strftime_seconds t; next_retry := None |} in
  if status_eqb status not_on_whatsapp then
    let! t' := datetime_now in
    let next_retry := t' + timedelta_hours retry_hours in
    ret (with_next_retry (strftime_seconds next_retry) result)
  else ret result.

Fixpoint check_loop (retry_hours : Z) (numbers : list str)
    (results : list CheckResult) : M (list CheckResult) :=
  match numbers with
  | [] => ret results
  | number :: numbers' =>
      let! result := check_item retry_hours number in
      check_loop retry_hours numbers' (results ++ [result])
  end.

(** The text of the message: [/skip], a text [int()] accepts, or another. *)
Inductive Reply :=
  | Skip
  | Number (n : Z)
  | NotANumber.

Inductive Handled :=
  | AskAgain
  | NoNumbers
  | Checked (results : list CheckResult).

Definition read_retry_hours (text : Reply) : option Z :=
  match text with
  | Skip => Some 24
  | Number retry_hours =>
      if (1 <=? retry_hours) && (retry_hours <=? 168) then Some retry_hours
      else None
  | NotANumber => None
  end.

Definition set_retry_and_check (text : Reply) (numbers : list str)
    (user_id : Z) : M Handled :=
  match read_retry_hours text with
  | None => ret AskAgain
  | Some retry_hours =>
      match numbers with
      | [] => ret NoNumbers
      | _ :: _ =>
          let! results := check_loop retry_hours numbers [] in
          let! t := datetime_now in
          do! modify (fun w =>
                set_user_data
                  (<[user_id := {| user_last_check := t;
                                   total_checked := Z.of_nat (length numbers) |}]>
                     (user_data w)) w) in
          do! save_to_file in
          ret (Checked results)
      end
  end.

(** ** FilterEngine and Exporter: [export_results] *)

Definition not_expired (now : datetime) (r : CheckResult) : bool :=
  match next_retry r with
  | None => true
  | Some t => t >? now
  end.

(** The [if not export_all:] block. *)
Definition filter_results (filter_type combo_type : string)
    (results : list CheckResult) : M (list CheckResult) :=
  if String.eqb filter_type "on" then
    ret (List.filter (fun r => status_eqb (status r) on_whatsapp) results)
  else if String.eqb filter_type "off" then
    ret (List.filter (fun r => status_eqb (status r) not_on_whatsapp) results)
  else if String.eqb filter_type "retry" then
    let! now := datetime_now in
    ret (List.filter
           (fun r => match next_retry r with
                     | Some t => t >? now
                     | None => false
                     end) results)
  else if negb (String.eqb combo_type "") then
    let! now := datetime_now in
    if String.eqb combo_type "both_and" then
      ret (List.filter
             (fun r => status_eqb (status r) not_on_whatsapp && not_expired now r)
             results)
    else if String.eqb combo_type "both_or" then
      ret (List.filter
             (fun r => status_eqb (status r) not_on_whatsapp || not_expired now r)
             results)
    else ret results
  else ret results.

(** [results_to_export], filtered or not. *)
Definition select_results (export_all : bool) (filter_type combo_type : string)
    (results : list CheckResult) : M (list CheckResult) :=
  if negb export_all then filter_results filter_type combo_type results
  else ret results.

Inductive Exported :=
  | NoResults
  | NoMatch
  | Document (file : Csv).

Definition export_results (export_all : bool) (filter_type combo_type : string)
    (results : list CheckResult) : M Exported :=
  match results with
  | [] => ret NoResults
  | _ :: _ =>
      let! results_to_export :=
        select_results export_all filter_type combo_type results in
      match results_to_export with
      | [] => ret NoMatch
      | _ :: _ =>
          let df := DataFrame (List.map to_dict results_to_export) in
          let! timestamp := datetime_now in
          ret (Document (to_csv df))
      end
  end.

End Engine.

(** ** Notions used in the statements *)

(** What [check_number] makes of a call of the backend: an exception
    becomes [error]. *)
Definition answered (a : api_result) : VerificationStatus :=
  match a with
  | Answer s => s
  | Fails _ => error
  end.

(** The answer of [check_number] for a raw string. *)
Definition verdict (R : Runtime) (x : str) : VerificationStatus :=
  match pywhatkit R with
  | None => answered (backend R (digits R x))
  | Some e =>
      if exn_eqb ImportError e then answered (backend R (digits R x))
      else error
  end.

(** The state after [check_number]: the backend is asked once, not at all
    when the import fails with another exception than [ImportError], and a
    second time when the import succeeds and the backend itself raises
    [ImportError]. *)
Definition after_check (R : Runtime) (x : str) (w : World) : World :=
  match pywhatkit R with
  | None =>
      match backend R (digits R x) with
      | Fails ImportError => log_call (digits R x) (log_call (digits R x) w)
      | _ => log_call (digits R x) w
      end
  | Some e => if exn_eqb ImportError e then log_call (digits R x) w else w
  end.

(** The record [update_status] writes at the clock reading [n]. *)
Definition upserted (R : Runtime) (previous : option StatusRecord)
    (status : VerificationStatus) (retry_hours : Z) (n : nat) : StatusRecord :=
  {| rec_status := status;
     last_check := now R n;
     rec_next_retry :=
       if status_eqb status not_on_whatsapp
       then Some (now R n + timedelta_hours retry_hours) else None;
     attempts := match previous with Some r => attempts r | None => 0 end + 1 |}.

(** The result the loop builds for [number] when its turn starts at the
    clock reading [n]: the upsert reads [n], the check time [n + 1], the
    retry time [n + 2]. *)
Definition result_at (R : Runtime) (retry_hours : Z) (number : str) (n : nat)
    : CheckResult :=
  {| phone := digits R number;
     status := verdict R number;
     check_time := strftime_seconds (now R (S n));
     next_retry :=
       if status_eqb (verdict R number) not_on_whatsapp
       then Some (strftime_seconds (now R (S (S n)) + timedelta_hours retry_hours))
       else None |}.

(** Clock readings taken by one turn of the loop. *)
Definition readings (R : Runtime) (number : str) : nat :=
  if status_eqb (verdict R number) not_on_whatsapp then 3%nat else 2%nat.

Fixpoint results_from (R : Runtime) (retry_hours : Z) (numbers : list str)
    (n : nat) : list CheckResult :=
  match numbers with
  | [] => []
  | number :: numbers' =>
      result_at R retry_hours number n
      :: results_from R retry_hours numbers' (n + readings R number)
  end.

(** The filter specifications of the specification, and what each one
    selects, in its words. *)
Inductive FilterSpec :=
  | On
  | Off
  | RetryDue
  | Combinator_AND
  | Combinator_OR
  | All.

Definition is_present_and_after (now : datetime) (nextRetry : option datetime) : bool :=
  match nextRetry with
  | Some t => bool_decide (now < t)
  | None => false
  end.

Definition is_absent_or_after (now : datetime) (nextRetry : option datetime) : bool :=
  match nextRetry with
  | Some t => bool_decide (now < t)
  | None => true
  end.

Definition predicate (spec : FilterSpec) (now : datetime) (r : CheckResult) : bool :=
  match spec with
  | On => bool_decide (status r = on_whatsapp)
  | Off => bool_decide (status r = not_on_whatsapp)
  | RetryDue => is_present_and_after now (next_retry r)
  | Combinator_AND =>
      bool_decide (status r = not_on_whatsapp)
      && is_absent_or_after now (next_retry r)
  | Combinator_OR =>
      bool_decide (status r = not_on_whatsapp)
      || is_absent_or_after now (next_retry r)
  | All => true
  end.

Definition FilterEngine_apply (spec : FilterSpec) (now : datetime)
    (results : list CheckResult) : list CheckResult :=
  match spec with
  | All => results
  | _ => List.filter (predicate spec now) results
  end.

(** How the handlers record each specification: [export_all], then
    [current_filter] and [combo_filter] of the user data.  A simple tag
    leaves the combination chosen before, [old_combo], in place; the
    combinators are chosen under the filter [combo]; an export of all
    results ignores both entries. *)
Definition settings (spec : FilterSpec) (old_filter old_combo : string)
    : bool * string * string :=
  match spec with
  | On => (false, "on", old_combo)
  | Off => (false, "off", old_combo)
  | RetryDue => (false, "retry", old_combo)
  | Combinator_AND => (false, "combo", "both_and")
  | Combinator_OR => (false, "combo", "both_or")
  | All => (true, old_filter, old_combo)
  end%string.

(** The columns of an export. *)
Definition three_columns : list string :=
  ["phone"; "status"; "check_time"]%string.

Definition four_columns : list string :=
  ["phone"; "status"; "check_time"; "next_retry"]%string.

Definition has_next_retry (r : CheckResult) : bool :=
  match next_retry r with
  | Some _ => true
  | None => false
  end.

(** The table of an export of [selected]. *)
Definition table_of (selected : list CheckResult) : Csv :=
  {| header :=
       if existsb has_next_retry selected then four_columns else three_columns;
     records :=
       List.map
         (fun r =>
            [Some (VStr (phone r)); Some (VStatus (status r));
             Some (VTime (check_time r))]
            ++ (if existsb has_next_retry selected
                then [VTime <$> next_retry r] else []))
         selected |}.

(** A sequence of upserts, and the number of saves each one triggers. *)
Definition Upsert : Type := list N * VerificationStatus * Z.

Definition upsert (R : Runtime) (w : World) (u : Upsert) : World :=
  let '(phone, status, retry_hours) := u in
  snd (update_status R phone status retry_hours w).

Definition upserts (R : Runtime) (us : list Upsert) (w : World) : World :=
  fold_left (upsert R) us w.

(** ** The shipped runtime *)

(** A clock that starts a quarter of a second into a second and moves on
    by 0.3 s between two readings. *)
Definition ticking (n : nat) : Z := 1762160400250000 + 300000 * Z.of_nat n.

(** The repository as shipped, on a host without [pywhatkit]. *)
Definition shipped : Runtime :=
  {| isdigit := isdigit_ascii;
     pywhatkit := Some ImportError;
     backend := _check_with_api;
     now := ticking |}.

(** ** Further notions used in the statements *)

(** The state after [save_to_file]. *)
Definition saved (w : World) : World :=
  write_data_json
    (Parsed (JObject (Some (checked_numbers w)) (Some (user_data w)))) w.

(** The key an upsert is for. *)
Definition key_of (u : Upsert) : list N := fst (fst u).

(** How many upserts of the sequence are for [key]. *)
Definition times_checked (key : list N) (us : list Upsert) : nat :=
  length (List.filter (fun u => bool_decide (key_of u = key)) us).

(** [.get('attempts', 0)] of an entry that may be missing. *)
Definition attempts_of (r : option StatusRecord) : Z :=
  match r with
  | Some r => attempts r
  | None => 0
  end.

(** ** The claims that do not hold as they are stated *)

(** The claim at one input: a result without digits makes the normaliser
    return a false value, and the checker answer [invalid] at once. *)
Definition rejects_digitless (R : Runtime) (x : str) (w : World) : Prop :=
  existsb (isdigit R) (digits R x) = false ->
  truthy (clean_phone_number R x) = false /\
  check_number R x w = (Return invalid, w).

(** The claim at one batch: every key the batch adds is the normalised
    form of one of its inputs. *)
Definition keys_are_canonical (R : Runtime) (h : Z) (numbers : list (list N))
    (w : World) : Prop :=
  forall key : list N,
    key ∈ dom (checked_numbers (snd (check_loop R h numbers [] w))) ->
    key ∈ dom (checked_numbers w) \/
    exists number, In number numbers /\ clean_phone_number R number = Some key.

(** The claim at one turn of the loop: in the stored record and in the
    result, the retry time is there exactly for [not_on_whatsapp], and is
    then the time of the upsert plus the retry hours. *)
Definition retry_is_upsert_time_plus_hours (R : Runtime) (h : Z) (number : str)
    (w : World) : Prop :=
  let upsert_time := now R (clock w) in
  (forall r, checked_numbers (snd (check_item R h number w)) !! number = Some r ->
     (rec_next_retry r <> None <-> rec_status r = not_on_whatsapp) /\
     (forall t, rec_next_retry r = Some t -> t = upsert_time + timedelta_hours h)) /\
  (forall res, fst (check_item R h number w) = Return res ->
     (next_retry res <> None <-> status res = not_on_whatsapp) /\
     (forall t, next_retry res = Some t -> t = upsert_time + timedelta_hours h)).

(** The claim at one run of ten upserts: the file is written at least
    once in their course. *)
Definition saved_within_ten (R : Runtime) (us : list Upsert) (w : World) : Prop :=
  length us = 10%nat -> (saves w < saves (upserts R us w))%nat.

(** The claim at one export of all results: a header of four columns, one
    record per result, and the fourth cell of a record empty when the
    result has no retry time. *)
Definition exports_four_columns (R : Runtime) (results : list CheckResult)
    (w : World) : Prop :=
  results <> [] ->
  exists file,
    fst (export_results R true "" "" results w) = Return (Document file) /\
    header file = four_columns /\
    length (records file) = length results /\
    Forall2 (fun r record => record !! 3%nat = Some (VTime <$> next_retry r))
      results (records file).

(** ** Sample data *)

(** A backend that raises for numbers ending in [7]. *)
Definition flaky (phone : str) : api_result :=
  if bool_decide (last phone = Some 55%N) then Fails RuntimeError
  else _check_with_api phone.

(** The shipped runtime with that backend in place of the stub. *)
Definition shipped_flaky : Runtime :=
  {| isdigit := isdigit_ascii; pywhatkit := pywhatkit shipped;
     backend := flaky; now := ticking |}.

(** Ten new numbers, [+234800] to [+234809]. *)
Definition ten_new_numbers : list Upsert :=
  List.map (fun d => (py "+23480" ++ [d], on_whatsapp, 24))
    (py "0123456789").

(** Two results, one without and one with a retry time. *)
Definition found_on_whatsapp : CheckResult :=
  {| phone := py "+2348012345678"; status := on_whatsapp;
     check_time := 1762160400000000; next_retry := None |}.

Definition not_found : CheckResult :=
  {| phone := py "+2348023456789"; status := not_on_whatsapp;
     check_time := 1762160401000000; next_retry := Some 1762246801000000 |}.

(** ** More of the handlers *)

(** What [process_numbers] replies. *)
Inductive NumbersReply :=
  | NoNumbersProvided
  | NoValidNumbers
  | AskRetryTime (numbers_to_check : list (list N)).

(** [process_numbers], with the text it is given and the text of the
    message; a text that is missing is [None]. *)
Definition process_numbers (R : Runtime) (numbers_text message_text : option str)
    : NumbersReply :=
  let numbers_text :=
    if negb (truthy numbers_text) && truthy message_text then message_text
    else numbers_text in
  if negb (truthy numbers_text) then NoNumbersProvided
  else
    match extract_numbers R (default [] numbers_text) with
    | [] => NoValidNumbers
    | numbers => AskRetryTime numbers
    end.

(** [s.replace(old, new)] for a non-empty [old]: the occurrences are
    replaced from the left and do not overlap; [skip] characters of an
    occurrence just replaced are still to be passed over. *)
Fixpoint replace_from (skip : nat) (old new s : string) : string :=
  match s with
  | EmptyString => EmptyString
  | String c s' =>
      match skip with
      | S skip' => replace_from skip' old new s'
      | O =>
          if String.prefix old s
          then (new ++ replace_from (String.length old - 1) old new s')%string
          else String c (replace_from 0 old new s')
      end
  end.

Definition replace (old new s : string) : string := replace_from 0 old new s.

(** The two entries of [context.user_data] the buttons write; a key that
    was never written is [None]. *)
Record Selection := {
  current_filter : option string;
  combo_filter : option string
}.


(** The export a button starts, with the entries of the user data read
    by [get(..., '')]. *)
Definition export_with (R : Runtime) (export_all : bool) (ctx : Selection)
    (results : list CheckResult) : M Exported :=
  export_results R export_all
    (default ""%string (current_filter ctx))
    (default ""%string (combo_filter ctx)) results.


(** The numbers of the message of [show_status]. *)
Record Statistics := {
  stat_total_checked : nat;
  stat_on_whatsapp : nat;
  stat_not_on_whatsapp : nat;
  stat_last_check : option datetime;
  stat_total_by_user : Z
}.

Definition show_status (user_id : Z) (w : World) : Statistics :=
  let user := user_data w !! user_id in
  let total := size (checked_numbers w) in
  let on :=
    length (List.filter (fun n => status_eqb (rec_status n) on_whatsapp)
              (List.map snd (map_to_list (checked_numbers w)))) in
  {| stat_total_checked := total;
     stat_on_whatsapp := on;
     stat_not_on_whatsapp := (total - on)%nat;
     stat_last_check := user_last_check <$> user;
     stat_total_by_user := default 0 (total_checked <$> user) |}.

(** One progress message of the batch, without its percentage, which the
    source computes in floating point. *)
Record Progress := {
  processed : nat;
  of_total : nat;
  on_so_far : nat;
  off_so_far : nat
}.

Definition count_status (s : VerificationStatus) (results : list CheckResult) : nat :=
  length (List.filter (fun r => status_eqb (status r) s) results).

(** The loop of [set_retry_and_check] with its counter [i] and the
    progress messages it sends. *)
Fixpoint check_loop_reporting (R : Runtime) (retry_hours : Z) (total i : nat)
    (numbers : list (list N)) (results : list CheckResult)
    (reports : list Progress) : M (list CheckResult * list Progress) :=
  match numbers with
  | [] => ret (results, reports)
  | number :: numbers' =>
      let! result := check_item R retry_hours number in
      let results := results ++ [result] in
      let reports :=
        if (i mod 5 =? 0)%nat || (i =? total)%nat then
          reports ++ [{| processed := i; of_total := total;
                         on_so_far := count_status on_whatsapp results;
                         off_so_far := count_status not_on_whatsapp results |}]
        else reports in
      check_loop_reporting R retry_hours total (S i) numbers' results reports
  end.

(** The indices at which a batch of [total] items reports. *)
Definition report_points (total : nat) : list nat :=
  List.filter (fun i => (i mod 5 =? 0)%nat || (i =? total)%nat) (seq 1 total).

(** A record as [update_status] leaves it. *)
Definition well_formed (r : StatusRecord) : Prop :=
  1 <= attempts r /\ (rec_next_retry r <> None <-> rec_status r = not_on_whatsapp).

(** The progress message sent after the [i]-th of [total] items. *)
Definition report (total i : nat) (results : list CheckResult) : Progress :=
  {| processed := i; of_total := total;
     on_so_far := count_status on_whatsapp results;
     off_so_far := count_status not_on_whatsapp results |}.

(** The progress messages of a loop that is at item [i], has the results
    [seen] and goes on to add the results [new]. *)
Fixpoint reports_over (total i : nat) (seen new : list CheckResult)
    : list Progress :=
  match new with
  | [] => []
  | r :: new' =>
      (if (i mod 5 =? 0)%nat || (i =? total)%nat
       then [report total i (seen ++ [r])] else [])
      ++ reports_over total (S i) (seen ++ [r]) new'
  end.

(** The entries of the ledger with the status [s]. *)
Definition entries_with (s : VerificationStatus) (w : World) : nat :=
  length (List.filter (fun n => status_eqb (rec_status n) s)
            (List.map snd (map_to_list (checked_numbers w)))).


(** How often [key] occurs among the raw inputs of a batch. *)
Definition occurrences (key : list N) (numbers : list (list N)) : nat :=
  length (List.filter (fun number => bool_decide (number = key)) numbers).

(** * Properties *)

(** ** Strings *)

Lemma lstrip_unchanged (s : str) :
  match s with [] => True | c :: _ => isspace c = false end -> lstrip s = s.
Proof.
  destruct s as [|c s]; simpl; [reflexivity|].
  now intros ->.
Qed.

Lemma strip_no_space (s : str) :
  Forall (fun c => isspace c = false) s -> strip s = s.
Proof.
  intros Hs. unfold strip, rstrip.
  rewrite (lstrip_unchanged s) by (destruct Hs; auto).
  assert (Hrev : Forall (fun c => isspace c = false) (rev s)).
  { now apply List.Forall_rev. }
  rewrite lstrip_unchanged by (destruct Hrev; auto).
  apply rev_involutive.
Qed.

Lemma filter_all {A} (f : A -> bool) (l : list A) :
  Forall (fun a => f a = true) l -> List.filter f l = l.
Proof.
  induction 1 as [|a l Ha _ IH]; simpl; [reflexivity|].
  now rewrite Ha, IH.
Qed.

Lemma filter_kept {A} (f : A -> bool) (l : list A) :
  Forall (fun a => f a = true) (List.filter f l).
Proof.
  apply Forall_forall. intros a Ha.
  apply list_elem_of_In, filter_In in Ha. tauto.
Qed.

(** ** PhoneNormalizer *)

Lemma keep_plus (R : Runtime) : keep R 43 = true.
Proof. unfold keep. apply orb_true_r. Qed.

Lemma filter_keep_plus (R : Runtime) (l : str) :
  List.filter (keep R) (43%N :: l) = 43%N :: List.filter (keep R) l.
Proof. cbn [List.filter]. now rewrite keep_plus. Qed.

(** Every result starts with [+] and holds only kept characters. *)
Lemma digits_shape (R : Runtime) (x : str) :
  exists rest, digits R x = 43%N :: rest /\ Forall (fun c => keep R c = true) rest.
Proof.
  unfold digits.
  destruct (startswith (strip x) (py "0")).
  { exists (List.filter (keep R) (py "234" ++ List.tl (strip x))).
    split; [apply filter_keep_plus | apply filter_kept]. }
  destruct (startswith (strip x) (py "234")).
  { exists (List.filter (keep R) (strip x)).
    split; [apply filter_keep_plus | apply filter_kept]. }
  destruct (startswith (strip x) (py "+")) eqn:Hplus; cbn [negb].
  - destruct (strip x) as [|c s]; [discriminate|].
    cbn in Hplus. apply andb_true_iff in Hplus as [Hc _].
    apply N.eqb_eq in Hc. subst c.
    exists (List.filter (keep R) s).
    split; [apply filter_keep_plus | apply filter_kept].
  - exists (List.filter (keep R) (strip x)).
    split; [apply filter_keep_plus | apply filter_kept].
Qed.

Lemma clean_phone_number_truthy (R : Runtime) (x : str) :
  truthy (clean_phone_number R x) = true.
Proof.
  unfold clean_phone_number.
  destruct (digits_shape R x) as (rest & -> & _). reflexivity.
Qed.

(** A string of kept characters that starts with [+] is left as it is. *)
Lemma digits_fixed (R : Runtime) (rest : str) :
  (forall c, isdigit R c = true -> isspace c = false) ->
  Forall (fun c => keep R c = true) rest ->
  digits R (43%N :: rest) = 43%N :: rest.
Proof.
  intros Hds Hrest.
  assert (Hall : Forall (fun c => keep R c = true) (43%N :: rest))
    by (constructor; [apply keep_plus | exact Hrest]).
  unfold digits. rewrite strip_no_space.
  - change (startswith (43%N :: rest) (py "0")) with false.
    change (startswith (43%N :: rest) (py "234")) with false.
    change (startswith (43%N :: rest) (py "+")) with true.
    cbn [negb]. now apply filter_all.
  - eapply Forall_impl; [exact Hall|]. intros c Hc. simpl in Hc.
    unfold keep in Hc. apply orb_true_iff in Hc as [Hc | Hc].
    + now apply Hds.
    + apply N.eqb_eq in Hc. now subst c.
Qed.

Lemma isdigit_ascii_not_space (c : N) :
  isdigit_ascii c = true -> isspace c = false.
Proof.
  unfold isdigit_ascii, isspace. intros H.
  apply andb_true_iff in H as [H1 H2].
  apply N.leb_le in H1. apply N.leb_le in H2.
  repeat match goal with
  | |- context [(?a <=? ?b)%N] => destruct (N.leb_spec a b)
  | |- context [(?a =? ?b)%N] => destruct (N.eqb_spec a b)
  end; simpl; try reflexivity; lia.
Qed.

(** C5: normalising the result of a normalisation changes nothing, for
    every raw string, when no code point is both a digit and white space
    (as in Unicode). *)
Theorem clean_phone_number_idempotent (R : Runtime) (x : str) :
  (forall c, isdigit R c = true -> isspace c = false) ->
  exists y, clean_phone_number R x = Some y /\
            clean_phone_number R y = clean_phone_number R x.
Proof.
  intros Hds. unfold clean_phone_number.
  destruct (digits_shape R x) as (rest & Hx & Hrest).
  exists (digits R x). split; [reflexivity|].
  rewrite Hx. f_equal. now apply digits_fixed.
Qed.

Lemma clean_phone_number_idempotent_witness :
  exists y, clean_phone_number shipped (py " 0802 345-6789 ") = Some y /\
            clean_phone_number shipped y
            = clean_phone_number shipped (py " 0802 345-6789 ").
Proof.
  apply (clean_phone_number_idempotent shipped (py " 0802 345-6789 ")).
  exact isdigit_ascii_not_space.
Defined.

(** ** VerificationClient *)

Lemma check_number_eq (R : Runtime) (x : str) (w : World) :
  check_number R x w = (Return (verdict R x), after_check R x w).
Proof.
  pose proof (clean_phone_number_truthy R x) as Ht.
  unfold check_number, verdict, after_check, answered, try_except, bind,
    import_pywhatkit, call_check_with_api, ret, raise.
  rewrite Ht. unfold clean_phone_number. cbn [negb default].
  generalize (digits R x). intros y.
  destruct (pywhatkit R) as [e|]; cbn.
  - destruct e; cbn; try reflexivity. destruct (backend R y); reflexivity.
  - destruct (backend R y) as [s|e] eqn:Hy; [reflexivity|].
    destruct e; cbn; rewrite ?Hy; reflexivity.
Qed.

(** ** StatusStore *)

Lemma update_status_eq (R : Runtime) (p : str) (s : VerificationStatus)
    (h : Z) (w : World) :
  let w1 :=
    set_checked_numbers
      (<[p := upserted R (checked_numbers w !! p) s h (clock w)]> (checked_numbers w))
      (tick w) in
  update_status R p s h w
  = (Return tt, if (size (checked_numbers w1) mod 10 =? 0)%nat then saved w1 else w1).
Proof.
  cbn zeta. unfold update_status, bind, datetime_now, gets, modify. cbn.
  unfold upserted.
  destruct (checked_numbers w !! p);
    match goal with |- context [if ?b then save_to_file else _] => destruct b end;
    reflexivity.
Qed.

Lemma update_status_store (R : Runtime) p s h w :
  checked_numbers (snd (update_status R p s h w))
  = <[p := upserted R (checked_numbers w !! p) s h (clock w)]> (checked_numbers w).
Proof.
  rewrite update_status_eq. cbn.
  match goal with |- context [if ?b then _ else _] => destruct b end; reflexivity.
Qed.

Lemma update_status_clock (R : Runtime) p s h w :
  clock (snd (update_status R p s h w)) = S (clock w).
Proof.
  rewrite update_status_eq. cbn.
  match goal with |- context [if ?b then _ else _] => destruct b end; reflexivity.
Qed.

Lemma update_status_returns (R : Runtime) p s h w :
  fst (update_status R p s h w) = Return tt.
Proof. now rewrite update_status_eq. Qed.

(** ** BatchRunner *)

Lemma after_check_clock (R : Runtime) x w : clock (after_check R x w) = clock w.
Proof.
  unfold after_check.
  destruct (pywhatkit R) as [e|];
    [destruct (exn_eqb ImportError e) | destruct (backend R (digits R x)) as [|[]]];
    reflexivity.
Qed.

Lemma after_check_store (R : Runtime) x w :
  checked_numbers (after_check R x w) = checked_numbers w.
Proof.
  unfold after_check.
  destruct (pywhatkit R) as [e|];
    [destruct (exn_eqb ImportError e) | destruct (backend R (digits R x)) as [|[]]];
    reflexivity.
Qed.

(** One turn of the loop always completes, with the result [result_at]. *)
Lemma check_item_eq (R : Runtime) (h : Z) (number : str) (w : World) :
  let w2 := snd (update_status R number (verdict R number) h (after_check R number w)) in
  check_item R h number w
  = (Return (result_at R h number (clock w)),
     if status_eqb (verdict R number) not_on_whatsapp then tick (tick w2) else tick w2).
Proof.
  cbn zeta. unfold check_item, bind at 1.
  rewrite check_number_eq. unfold bind at 1.
  rewrite (surjective_pairing (update_status R number _ h _)).
  rewrite update_status_returns.
  rewrite clean_phone_number_truthy.
  unfold result_at, bind, datetime_now, ret, with_next_retry, clean_phone_number.
  destruct (status_eqb (verdict R number) not_on_whatsapp);
    cbn [default from_option id fst snd phone status check_time next_retry clock tick];
    rewrite ?update_status_clock, ?after_check_clock; reflexivity.
Qed.

Lemma check_item_store (R : Runtime) h number w :
  checked_numbers (snd (check_item R h number w))
  = <[number := upserted R (checked_numbers w !! number) (verdict R number) h (clock w)]>
      (checked_numbers w).
Proof.
  rewrite check_item_eq. cbn [snd].
  transitivity (checked_numbers
    (snd (update_status R number (verdict R number) h (after_check R number w)))).
  { destruct (status_eqb (verdict R number) not_on_whatsapp); reflexivity. }
  now rewrite update_status_store, after_check_store, after_check_clock.
Qed.

Lemma check_item_clock (R : Runtime) h number w :
  clock (snd (check_item R h number w)) = (clock w + readings R number)%nat.
Proof.
  rewrite check_item_eq. cbn [snd]. unfold readings.
  destruct (status_eqb (verdict R number) not_on_whatsapp); cbn [clock tick];
    rewrite update_status_clock, after_check_clock; lia.
Qed.

(** The loop completes and appends one result per number, in order. *)
Lemma check_loop_eq (R : Runtime) (h : Z) (numbers : list (list N)) :
  forall (results : list CheckResult) (w : World),
    fst (check_loop R h numbers results w)
    = Return (results ++ results_from R h numbers (clock w)).
Proof.
  induction numbers as [|number numbers IH]; intros results w.
  - cbn. now rewrite app_nil_r.
  - cbn [check_loop results_from]. unfold bind.
    rewrite (surjective_pairing (check_item R h number w)).
    rewrite check_item_eq at 1. cbn [fst].
    rewrite IH, check_item_clock. now rewrite <- app_assoc.
Qed.

Lemma check_loop_store (R : Runtime) (h : Z) (numbers : list (list N)) :
  forall (results : list CheckResult) (w : World),
    dom (checked_numbers (snd (check_loop R h numbers results w)))
    = dom (checked_numbers w) ∪ list_to_set numbers.
Proof.
  induction numbers as [|number numbers IH]; intros results w.
  - cbn. now rewrite union_empty_r_L.
  - cbn [check_loop]. unfold bind.
    rewrite (surjective_pairing (check_item R h number w)).
    rewrite check_item_eq at 1. cbn [fst].
    rewrite IH, check_item_store, dom_insert_L, list_to_set_cons.
    rewrite (comm_L (∪) {[number]} (dom (checked_numbers w))).
    now rewrite <- (assoc_L (∪)).
Qed.

Lemma results_from_length (R : Runtime) h numbers :
  forall n, length (results_from R h numbers n) = length numbers.
Proof. induction numbers; intros n; cbn; [reflexivity | now rewrite IHnumbers]. Qed.

Lemma results_from_lookup (R : Runtime) h numbers :
  forall n i number,
    numbers !! i = Some number ->
    exists k, results_from R h numbers n !! i = Some (result_at R h number k).
Proof.
  induction numbers as [|x numbers IH]; intros n i number Hi; [discriminate|].
  destruct i as [|i]; cbn in *.
  - injection Hi as ->. now exists n.
  - now apply IH.
Qed.

(** ** C1: inputs without digits *)

Lemma all_plus (R : Runtime) (l : str) :
  Forall (fun c => keep R c = true) l ->
  existsb (isdigit R) l = false ->
  l = repeat 43%N (length l).
Proof.
  induction 1 as [|c l Hc _ IH]; cbn; [reflexivity|].
  intros Hd. apply orb_false_iff in Hd as [Hd1 Hd2].
  unfold keep in Hc. rewrite Hd1 in Hc. cbn in Hc.
  apply N.eqb_eq in Hc. subst c. f_equal. now apply IH.
Qed.

Lemma last_repeat {A} (a : A) (n : nat) : last (repeat a (S n)) = Some a.
Proof. induction n as [|n IH]; [reflexivity|]. exact IH. Qed.

Lemma stub_on_plus (n : nat) :
  _check_with_api (repeat 43%N (S n)) = Answer not_on_whatsapp.
Proof. unfold _check_with_api. now rewrite last_repeat. Qed.

(** C1, as the code has it: a raw string whose result has no digit is
    normalised, without an exception, to a non-empty run of [+], which is
    a true value; [check_number] does not answer [invalid] for it but asks
    the backend (unless the import of [pywhatkit] fails with another
    exception than [ImportError]) and returns its answer, which is
    [not_on_whatsapp] for the shipped backend. *)
Theorem digitless_is_checked (R : Runtime) (x : str) (w : World) :
  existsb (isdigit R) (digits R x) = false ->
  exists n,
    let y := repeat 43%N (S n) in
    clean_phone_number R x = Some y /\
    truthy (clean_phone_number R x) = true /\
    (pywhatkit R = None \/ pywhatkit R = Some ImportError ->
     fst (check_number R x w) = Return (answered (backend R y)) /\
     In y (calls (snd (check_number R x w)))) /\
    answered (_check_with_api y) = not_on_whatsapp.
Proof.
  intros Hd.
  destruct (digits_shape R x) as (rest & Hx & Hrest).
  assert (Hall : Forall (fun c => keep R c = true) (digits R x))
    by (rewrite Hx; constructor; [apply keep_plus | exact Hrest]).
  pose proof (all_plus R _ Hall Hd) as Hy.
  rewrite Hx in Hy at 2. cbn [length] in Hy.
  exists (length rest). cbn zeta.
  split; [unfold clean_phone_number; now rewrite <- Hy|].
  split; [apply clean_phone_number_truthy|].
  split; [|now rewrite stub_on_plus].
  intros Himp. rewrite check_number_eq. cbn [fst snd].
  unfold verdict, after_check. rewrite <- Hy.
  generalize (digits R x). intros y.
  destruct Himp as [-> | ->]; cbn.
  - split; [reflexivity|].
    destruct (backend R y) as [|[]]; cbn; rewrite ?in_app_iff; cbn; tauto.
  - split; [reflexivity|]. rewrite in_app_iff. cbn. tauto.
Qed.

Lemma digitless_is_checked_witness :
  exists n,
    let y := repeat 43%N (S n) in
    clean_phone_number shipped (py "abc") = Some y /\
    truthy (clean_phone_number shipped (py "abc")) = true /\
    (pywhatkit shipped = None \/ pywhatkit shipped = Some ImportError ->
     fst (check_number shipped (py "abc") (initial None))
     = Return (answered (backend shipped y)) /\
     In y (calls (snd (check_number shipped (py "abc") (initial None))))) /\
    answered (_check_with_api y) = not_on_whatsapp.
Proof.
  apply (digitless_is_checked shipped (py "abc") (initial None)).
  vm_compute. reflexivity.
Defined.

(** C1 fails on [abc]: the normaliser returns [+] and the checker asks the
    backend, which answers [not_on_whatsapp]. *)
Lemma rejects_digitless_counterexample :
  ~ rejects_digitless shipped (py "abc") (initial None).
Proof.
  intros H. destruct H as [H _]; [reflexivity|].
  vm_compute in H. discriminate H.
Qed.

Example check_number_abc :
  check_number shipped (py "abc") (initial None)
  = (Return not_on_whatsapp, log_call (py "+") (initial None)).
Proof. reflexivity. Qed.

(** The transport only hands on parts that hold a digit. *)
Lemma extract_numbers_have_digit (R : Runtime) (text part : str) :
  In part (extract_numbers R text) -> existsb (isdigit R) part = true.
Proof.
  unfold extract_numbers. intros H.
  apply in_flat_map in H as (line & _ & H).
  apply filter_In in H as [_ H].
  now apply andb_true_iff in H as [_ H].
Qed.

(** ** C2: the keys of the ledger *)

(** C2, as the code has it: [update_status] is called with the raw item,
    so the keys a batch adds are its raw inputs, whatever they normalise
    to; two spellings that differ as strings are two entries. *)
Theorem batch_keys_are_raw (R : Runtime) (h : Z) (numbers : list (list N))
    (w : World) :
  dom (checked_numbers (snd (check_loop R h numbers [] w)))
  = dom (checked_numbers w) ∪ list_to_set numbers.
Proof. apply check_loop_store. Qed.

(** C2 fails on two spellings of one number: the trunk spelling is a key
    of its own. *)
Lemma keys_are_canonical_counterexample :
  ~ keys_are_canonical shipped 24
      [py "08023456789"; py "+2348023456789"] (initial None).
Proof.
  intros H. specialize (H (py "08023456789")).
  destruct H as [H | (number & Hin & Hc)].
  - rewrite check_loop_store. set_solver.
  - cbn in H. set_solver.
  - destruct Hin as [<- | [<- | []]]; vm_compute in Hc; discriminate Hc.
Qed.

Example two_spellings_two_entries :
  let w := snd (check_loop shipped 24
                  [py "08023456789"; py "+2348023456789"] [] (initial None)) in
  size (checked_numbers w) = 2%nat /\
  attempts <$> checked_numbers w !! py "08023456789" = Some 1 /\
  attempts <$> checked_numbers w !! py "+2348023456789" = Some 1.
Proof. vm_compute. auto. Qed.

(** ** C3: the retry time *)

Lemma status_eqb_eq (a b : VerificationStatus) : status_eqb a b = true <-> a = b.
Proof. destruct a, b; cbn; split; congruence. Qed.

Lemma retry_present_iff {A} (s : VerificationStatus) (t : A) :
  (if status_eqb s not_on_whatsapp then Some t else None) <> None
  <-> s = not_on_whatsapp.
Proof. destruct s; cbn; split; congruence. Qed.

Lemma results_from_retry (R : Runtime) h numbers :
  forall n,
    Forall (fun res => next_retry res <> None <-> status res = not_on_whatsapp)
      (results_from R h numbers n).
Proof.
  induction numbers as [|x numbers IH]; intros n; cbn; constructor; [|apply IH].
  apply retry_present_iff.
Qed.

(** C3, as the code has it.  After [update_status] the stored record has a
    retry time exactly when the status is [not_on_whatsapp], and it is the
    time of the upsert plus the retry hours.  Every result of a batch has
    one exactly when its status is [not_on_whatsapp]; it is not taken from
    the record but computed from a later reading of the clock (the second
    after the one of the upsert), plus the retry hours, cut to whole
    seconds. *)
Theorem retry_time_present_iff_not_on (R : Runtime) (h : Z) :
  (forall p s w,
     exists r,
       checked_numbers (snd (update_status R p s h w)) !! p = Some r /\
       rec_status r = s /\
       (rec_next_retry r <> None <-> s = not_on_whatsapp) /\
       (s = not_on_whatsapp ->
        rec_next_retry r = Some (now R (clock w) + timedelta_hours h))) /\
  (forall numbers w,
     exists results,
       fst (check_loop R h numbers [] w) = Return results /\
       Forall (fun res => next_retry res <> None <-> status res = not_on_whatsapp)
         results) /\
  (forall number w,
     exists res,
       fst (check_item R h number w) = Return res /\
       (status res = not_on_whatsapp ->
        next_retry res
        = Some (strftime_seconds (now R (clock w + 2) + timedelta_hours h)))).
Proof.
  split; [|split].
  - intros p s w. eexists. split; [|split; [|split]].
    + rewrite update_status_store. apply lookup_insert_eq.
    + reflexivity.
    + apply retry_present_iff.
    + intros ->. reflexivity.
  - intros numbers w. eexists. split; [apply check_loop_eq|].
    apply results_from_retry.
  - intros number w. eexists. split; [now rewrite check_item_eq|].
    cbn. intros ->. now replace (clock w + 2)%nat with (S (S (clock w))) by lia.
Qed.

(** C3 fails on the value: the retry time of the result is not the one of
    the record. *)
Lemma retry_is_upsert_time_plus_hours_counterexample :
  ~ retry_is_upsert_time_plus_hours shipped 24 (py "08023456789") (initial None).
Proof.
  intros [_ H].
  destruct (H (result_at shipped 24 (py "08023456789") 0)) as [_ Ht];
    [reflexivity|].
  specialize (Ht _ eq_refl). vm_compute in Ht. discriminate Ht.
Qed.

Example retry_times_of_one_turn :
  let '(o, w) := check_item shipped 24 (py "08023456789") (initial None) in
  rec_next_retry <$> checked_numbers w !! py "08023456789"
  = Some (Some 1762246800250000) /\
  next_retry <$> (match o with Return res => Some res | Raise _ => None end)
  = Some (Some 1762246800000000).
Proof. vm_compute. auto. Qed.

(** ** C4: the attempts counter *)

Lemma upsert_store (R : Runtime) (w : World) (u : Upsert) :
  checked_numbers (upsert R w u)
  = <[key_of u := upserted R (checked_numbers w !! key_of u)
                    (snd (fst u)) (snd u) (clock w)]> (checked_numbers w).
Proof. destruct u as [[p s] h]. apply update_status_store. Qed.

Lemma upserts_attempts (R : Runtime) (key : list N) (us : list Upsert) :
  forall w,
    (times_checked key us = 0%nat ->
     checked_numbers (upserts R us w) !! key = checked_numbers w !! key) /\
    (times_checked key us <> 0%nat ->
     exists r,
       checked_numbers (upserts R us w) !! key = Some r /\
       attempts r
       = attempts_of (checked_numbers w !! key) + Z.of_nat (times_checked key us)).
Proof.
  induction us as [|u us IH]; intros w.
  - split; [reflexivity | intros H; now contradiction H].
  - destruct (IH (upsert R w u)) as [IH0 IH1].
    unfold times_checked in *. cbn [List.filter upserts fold_left] in *.
    fold (upserts R us (upsert R w u)).
    case_bool_decide as Hk; cbn [length].
    + split; [discriminate|]. intros _.
      assert (Hw : checked_numbers (upsert R w u) !! key
                   = Some (upserted R (checked_numbers w !! key)
                             (snd (fst u)) (snd u) (clock w))).
      { rewrite upsert_store, Hk. apply lookup_insert_eq. }
      destruct (length (List.filter (fun u0 => bool_decide (key_of u0 = key)) us))
        as [|k] eqn:Hlen.
      * eexists. split; [rewrite IH0 by reflexivity; exact Hw|].
        cbn. unfold attempts_of. lia.
      * destruct IH1 as (r & Hr & Ha); [discriminate|].
        exists r. split; [exact Hr|]. rewrite Ha, Hw. cbn. unfold attempts_of. lia.
    + assert (Hw : checked_numbers (upsert R w u) !! key = checked_numbers w !! key).
      { rewrite upsert_store. now apply lookup_insert_ne. }
      rewrite <- Hw. split; assumption.
Qed.

(** C4: from an absent entry, after the upserts of any sequence the
    attempts of a key are the number of upserts for that key, whatever
    other keys come in between; and one upsert adds exactly one to the
    attempts of its key and leaves those of every other key as they are. *)
Theorem attempts_count_upserts (R : Runtime) (us : list Upsert) (w : World)
    (key : list N) :
  checked_numbers w !! key = None ->
  attempts <$> checked_numbers (upserts R us w) !! key
  = (if times_checked key us is 0%nat then None
     else Some (Z.of_nat (times_checked key us))) /\
  (forall (u : Upsert) (w0 : World),
     attempts_of (checked_numbers (upsert R w0 u) !! key)
     = attempts_of (checked_numbers w0 !! key)
       + (if bool_decide (key_of u = key) then 1 else 0)).
Proof.
  intros Hnone. split.
  - destruct (upserts_attempts R key us w) as [H0 H1].
    destruct (times_checked key us) as [|k] eqn:Hk.
    + now rewrite H0, Hnone.
    + destruct H1 as (r & -> & Ha); [discriminate|].
      cbn. rewrite Ha, Hnone. reflexivity.
  - intros u w0. rewrite upsert_store. case_bool_decide as Hk.
    + rewrite Hk, lookup_insert_eq. reflexivity.
    + rewrite lookup_insert_ne by assumption. lia.
Qed.

Lemma attempts_count_upserts_witness :
  let us := [(py "+2348012345678", on_whatsapp, 24);
             (py "+2348023456789", not_on_whatsapp, 24);
             (py "+2348012345678", on_whatsapp, 24);
             (py "+2348012345678", error, 24)] in
  attempts <$> checked_numbers (upserts shipped us (initial None))
                 !! py "+2348012345678"
  = (if times_checked (py "+2348012345678") us is 0%nat then None
     else Some (Z.of_nat (times_checked (py "+2348012345678") us))) /\
  (forall (u : Upsert) (w0 : World),
     attempts_of (checked_numbers (upsert shipped w0 u) !! py "+2348012345678")
     = attempts_of (checked_numbers w0 !! py "+2348012345678")
       + (if bool_decide (key_of u = py "+2348012345678") then 1 else 0)).
Proof.
  apply (attempts_count_upserts shipped _ (initial None) (py "+2348012345678")).
  reflexivity.
Defined.

Example attempts_after_three_of_four :
  attempts <$> checked_numbers
     (upserts shipped
        [(py "+2348012345678", on_whatsapp, 24);
         (py "+2348023456789", not_on_whatsapp, 24);
         (py "+2348012345678", on_whatsapp, 24);
         (py "+2348012345678", error, 24)] (initial None))
     !! py "+2348012345678" = Some 3.
Proof. vm_compute. reflexivity. Qed.

(** ** C6: one result per input *)

Lemma set_retry_and_check_results (R : Runtime) (h : Z) (numbers : list (list N))
    (user_id : Z) (w : World) :
  numbers <> [] -> 1 <= h <= 168 ->
  fst (set_retry_and_check R (Number h) numbers user_id w)
  = Return (Checked (results_from R h numbers (clock w))).
Proof.
  intros Hne Hh. unfold set_retry_and_check, read_retry_hours.
  replace ((1 <=? h) && (h <=? 168)) with true
    by (symmetry; apply andb_true_iff; split; apply Z.leb_le; lia).
  destruct numbers as [|number numbers]; [contradiction|].
  unfold bind at 1.
  rewrite (surjective_pairing (check_loop R h (number :: numbers) [] w)).
  now rewrite check_loop_eq.
Qed.

(** C6: for a non-empty list and retry hours within 1..168 the batch
    completes with exactly one result per input, in the order of the
    inputs and with repeated inputs kept: the i-th result carries the
    normalised form of the i-th input and the answer of [check_number]
    for it.  When the backend raises for an item, or the import fails with
    another exception than [ImportError], that result has the status
    [error], and the results of the other items are there all the same. *)
Theorem batch_one_result_per_input (R : Runtime) (h : Z)
    (numbers : list (list N)) (user_id : Z) (w : World) :
  numbers <> [] -> 1 <= h <= 168 ->
  exists results,
    fst (set_retry_and_check R (Number h) numbers user_id w)
    = Return (Checked results) /\
    length results = length numbers /\
    List.map phone results = List.map (digits R) numbers /\
    forall i number,
      numbers !! i = Some number ->
      exists res,
        results !! i = Some res /\
        clean_phone_number R number = Some (phone res) /\
        (forall w0, fst (check_number R number w0) = Return (status res)) /\
        (forall e, pywhatkit R = None \/ pywhatkit R = Some ImportError ->
                   backend R (digits R number) = Fails e -> status res = error) /\
        (forall e, pywhatkit R = Some e -> e <> ImportError -> status res = error).
Proof.
  intros Hne Hh. exists (results_from R h numbers (clock w)).
  split; [now apply set_retry_and_check_results|].
  split; [apply results_from_length|].
  split.
  { generalize (clock w). clear. induction numbers as [|x numbers IH]; intros n;
      cbn; [reflexivity | now rewrite IH]. }
  intros i number Hi.
  destruct (results_from_lookup R h numbers (clock w) i number Hi) as (k & Hk).
  exists (result_at R h number k). split; [exact Hk|].
  split; [reflexivity|].
  split; [intros w0; now rewrite check_number_eq|].
  cbn [status result_at]. unfold verdict. split.
  - intros e [-> | ->] ->; reflexivity.
  - intros e -> He. destruct e; try reflexivity. now contradiction He.
Qed.

Lemma batch_one_result_per_input_witness :
  exists results,
    fst (set_retry_and_check shipped_flaky (Number 24)
           [py "+2348012345678"; py "08023456787"; py "abc"; py "08023456789";
            py "+2348012345678"] 7 (initial None))
    = Return (Checked results) /\
    List.map status results
    = [on_whatsapp; error; not_on_whatsapp; not_on_whatsapp; on_whatsapp].
Proof.
  destruct (batch_one_result_per_input shipped_flaky 24
              [py "+2348012345678"; py "08023456787"; py "abc"; py "08023456789";
               py "+2348012345678"] 7 (initial None))
    as (results & Hr & _); [discriminate | lia |].
  exists results. split; [exact Hr|].
  vm_compute in Hr. injection Hr as <-. reflexivity.
Defined.

(** ** C8: when the ledger is saved *)

Lemma update_status_saves (R : Runtime) p s h w :
  saves (snd (update_status R p s h w))
  = if (size (checked_numbers (snd (update_status R p s h w))) mod 10 =? 0)%nat
    then S (saves w) else saves w.
Proof.
  rewrite update_status_store. rewrite update_status_eq. cbn [snd].
  cbn [checked_numbers set_checked_numbers].
  match goal with |- context [if ?b then _ else _] => destruct b end; reflexivity.
Qed.

Lemma upsert_saves (R : Runtime) (w : World) (u : Upsert) :
  saves (upsert R w u)
  = if (size (checked_numbers (upsert R w u)) mod 10 =? 0)%nat
    then S (saves w) else saves w.
Proof. destruct u as [[p s] h]. apply update_status_saves. Qed.

Lemma upserts_saves_mono (R : Runtime) (us : list Upsert) :
  forall w, (saves w <= saves (upserts R us w))%nat.
Proof.
  induction us as [|u us IH]; intros w; [reflexivity|].
  cbn [upserts fold_left]. fold (upserts R us (upsert R w u)).
  etransitivity; [|apply IH]. rewrite upsert_saves.
  destruct (_ =? _)%nat; lia.
Qed.

(** New keys fill the ledger up to the next multiple of ten. *)
Lemma new_keys_reach_a_save (R : Runtime) (us : list Upsert) :
  forall w,
    NoDup (List.map key_of us) ->
    Forall (fun u => checked_numbers w !! key_of u = None) us ->
    (10 <= size (checked_numbers w) mod 10 + length us)%nat ->
    (saves w < saves (upserts R us w))%nat.
Proof.
  induction us as [|u us IH]; intros w Hnd Hfresh Hlen.
  - cbn in Hlen. pose proof (Nat.mod_upper_bound (size (checked_numbers w)) 10). lia.
  - cbn [upserts fold_left]. fold (upserts R us (upsert R w u)).
    apply NoDup_cons in Hnd as [Hu Hnd]. apply Forall_cons in Hfresh as [Hk Hfresh].
    assert (Hsize : size (checked_numbers (upsert R w u))
                    = S (size (checked_numbers w))).
    { rewrite upsert_store. now apply map_size_insert_None. }
    pose proof (upsert_saves R w u) as Hs. rewrite Hsize in Hs.
    destruct (Nat.eqb_spec (S (size (checked_numbers w)) mod 10) 0) as [H0|H0].
    + pose proof (upserts_saves_mono R us (upsert R w u)). lia.
    + rewrite <- Hs. apply IH.
      * exact Hnd.
      * apply Forall_forall. intros v Hv. rewrite upsert_store.
        rewrite lookup_insert_ne.
        -- rewrite Forall_forall in Hfresh. now apply Hfresh.
        -- intros Heq. apply Hu. rewrite Heq.
           apply list_elem_of_In, in_map, list_elem_of_In, Hv.
      * rewrite Hsize. cbn [length] in Hlen.
        pose proof (Nat.div_mod_eq (size (checked_numbers w)) 10).
        pose proof (Nat.div_mod_eq (S (size (checked_numbers w))) 10).
        pose proof (Nat.mod_upper_bound (size (checked_numbers w)) 10).
        pose proof (Nat.mod_upper_bound (S (size (checked_numbers w))) 10).
        lia.
Qed.

(** C8, as the code has it: [update_status] writes the file exactly when
    the number of keys of the ledger, after the upsert, is a multiple of
    ten.  So ten upserts in a row that each bring a new key include a
    write. *)
Theorem saved_on_every_tenth_key (R : Runtime) (us : list Upsert) (w : World) :
  length us = 10%nat ->
  NoDup (List.map key_of us) ->
  Forall (fun u => checked_numbers w !! key_of u = None) us ->
  (saves w < saves (upserts R us w))%nat /\
  (forall p s h w0,
     saves (snd (update_status R p s h w0))
     = if (size (checked_numbers (snd (update_status R p s h w0))) mod 10 =? 0)%nat
       then S (saves w0) else saves w0).
Proof.
  intros Hlen Hnd Hfresh. split.
  - apply new_keys_reach_a_save; [exact Hnd | exact Hfresh | lia].
  - intros p s h w0. apply update_status_saves.
Qed.

Lemma saved_on_every_tenth_key_witness :
  (saves (initial None) < saves (upserts shipped ten_new_numbers (initial None)))%nat /\
  (forall p s h w0,
     saves (snd (update_status shipped p s h w0))
     = if (size (checked_numbers (snd (update_status shipped p s h w0))) mod 10 =? 0)%nat
       then S (saves w0) else saves w0).
Proof.
  apply (saved_on_every_tenth_key shipped ten_new_numbers (initial None)).
  - reflexivity.
  - apply (bool_decide_unpack _). vm_compute. exact I.
  - apply (bool_decide_unpack _). vm_compute. exact I.
Defined.

(** C8 fails when one number is checked again and again: ten upserts and
    no write. *)
Lemma saved_within_ten_counterexample :
  ~ saved_within_ten shipped
      (repeat (py "+2348023456789", not_on_whatsapp, 24) 10) (initial None).
Proof.
  intros H. specialize (H eq_refl). vm_compute in H. lia.
Qed.

(** ** C7: the filters *)

Lemma filter_sublist {A} (f : A -> bool) (l : list A) : sublist (List.filter f l) l.
Proof.
  induction l as [|a l IH]; cbn; [constructor|].
  destruct (f a); now constructor.
Qed.

Lemma gtb_after (now t : Z) : (t >? now) = bool_decide (now < t).
Proof.
  rewrite Z.gtb_ltb. case_bool_decide as H.
  - now apply Z.ltb_lt.
  - now apply Z.ltb_ge, Z.nlt_ge.
Qed.

Lemma status_eqb_decide (a b : VerificationStatus) :
  status_eqb a b = bool_decide (a = b).
Proof.
  case_bool_decide as H.
  - now apply status_eqb_eq.
  - destruct (status_eqb a b) eqn:E; [|reflexivity]. now apply status_eqb_eq in E.
Qed.

(** C7: with the settings the handlers store for a specification, the
    export selects exactly the results the specification names, read at
    the time [datetime.now()] gives at that moment, in their order and
    with repetitions kept; the export of all results, and an export
    before any filter was chosen, select them all. *)
Theorem select_results_implements_spec (R : Runtime) (spec : FilterSpec)
    (old_filter old_combo : string) (results : list CheckResult) (w : World) :
  let '(export_all, filter_type, combo_type) :=
    settings spec old_filter old_combo in
  fst (select_results R export_all filter_type combo_type results w)
  = Return (FilterEngine_apply spec (now R (clock w)) results) /\
  sublist (FilterEngine_apply spec (now R (clock w)) results) results /\
  FilterEngine_apply All (now R (clock w)) results = results /\
  fst (select_results R false "" "" results w) = Return results.
Proof.
  destruct spec; cbn [settings];
    (split; [|split; [|split; reflexivity]]);
    try (unfold FilterEngine_apply; apply filter_sublist);
    try reflexivity;
    unfold select_results, filter_results, bind, datetime_now, ret;
    cbn [negb String.eqb Ascii.eqb Bool.eqb fst FilterEngine_apply];
    f_equal; apply filter_ext; intros r;
    unfold predicate, not_expired, is_present_and_after, is_absent_or_after;
    rewrite ?status_eqb_decide; destruct (next_retry r);
    rewrite ?gtb_after; reflexivity.
Qed.

Example filters_around_now :
  let r1 := {| phone := py "+1"; status := not_on_whatsapp; check_time := 0;
               next_retry := Some 86400000000 |} in
  let r2 := {| phone := py "+2"; status := on_whatsapp; check_time := 0;
               next_retry := None |} in
  let r3 := {| phone := py "+3"; status := not_on_whatsapp; check_time := 0;
               next_retry := Some 1762160400000000 |} in
  let w := initial None in
  fst (select_results shipped false "retry" "" [r1; r2; r3; r1] w) = Return [] /\
  fst (select_results shipped false "combo" "both_and" [r1; r2; r3; r1] w) = Return [] /\
  fst (select_results shipped false "combo" "both_or" [r1; r2; r3; r1] w)
  = Return [r1; r2; r3; r1] /\
  fst (select_results shipped false "off" "" [r1; r2; r3; r1] w) = Return [r1; r3; r1].
Proof. vm_compute. auto. Qed.

(** ** C9: the exported table *)

Lemma add_keys_three (r : CheckResult) :
  add_keys three_columns (to_dict r)
  = if has_next_retry r then four_columns else three_columns.
Proof. unfold has_next_retry, to_dict. destruct (next_retry r); reflexivity. Qed.

Lemma add_keys_four (r : CheckResult) :
  add_keys four_columns (to_dict r) = four_columns.
Proof. unfold to_dict. destruct (next_retry r); reflexivity. Qed.

Lemma add_keys_first (r : CheckResult) :
  add_keys [] (to_dict r)
  = if has_next_retry r then four_columns else three_columns.
Proof. unfold has_next_retry, to_dict. destruct (next_retry r); reflexivity. Qed.

Lemma columns_from_four (rs : list CheckResult) :
  fold_left add_keys (List.map to_dict rs) four_columns = four_columns.
Proof.
  induction rs as [|r rs IH]; [reflexivity|].
  cbn [List.map fold_left]. now rewrite add_keys_four.
Qed.

Lemma columns_from_three (rs : list CheckResult) :
  fold_left add_keys (List.map to_dict rs) three_columns
  = if existsb has_next_retry rs then four_columns else three_columns.
Proof.
  induction rs as [|r rs IH]; [reflexivity|].
  cbn [List.map fold_left existsb]. rewrite add_keys_three.
  destruct (has_next_retry r); [apply columns_from_four | exact IH].
Qed.

Lemma columns_of_results (rs : list CheckResult) :
  rs <> [] ->
  fold_left add_keys (List.map to_dict rs) []
  = if existsb has_next_retry rs then four_columns else three_columns.
Proof.
  destruct rs as [|r rs]; [contradiction|]. intros _.
  cbn [List.map fold_left existsb]. rewrite add_keys_first.
  destruct (has_next_retry r); [apply columns_from_four | apply columns_from_three].
Qed.

Lemma row_three (r : CheckResult) :
  List.map (fun c => dict_get c (to_dict r)) three_columns
  = [Some (VStr (phone r)); Some (VStatus (status r)); Some (VTime (check_time r))].
Proof. reflexivity. Qed.

Lemma row_four (r : CheckResult) :
  List.map (fun c => dict_get c (to_dict r)) four_columns
  = [Some (VStr (phone r)); Some (VStatus (status r)); Some (VTime (check_time r));
     VTime <$> next_retry r].
Proof. unfold to_dict. destruct (next_retry r); reflexivity. Qed.

Lemma table_of_DataFrame (selected : list CheckResult) :
  selected <> [] ->
  to_csv (DataFrame (List.map to_dict selected)) = table_of selected.
Proof.
  intros Hne. unfold to_csv, DataFrame, table_of. cbn [columns rows].
  rewrite columns_of_results by exact Hne.
  f_equal. rewrite List.map_map. apply List.map_ext. intros r.
  destruct (existsb has_next_retry selected); [apply row_four | apply row_three].
Qed.

(** C9, as the code has it: when the selection of a non-empty result
    list is not empty, its export has a header row and one record per
    selected result, in order, with the columns [phone], [status],
    [check_time]; the column [next_retry] is there only when at least one
    exported result has a retry time, and its cell is then empty for the
    results that have none. *)
Theorem export_columns_follow_results (R : Runtime) (export_all : bool)
    (filter_type combo_type : string) (results selected : list CheckResult)
    (w : World) :
  results <> [] ->
  fst (select_results R export_all filter_type combo_type results w)
  = Return selected ->
  selected <> [] ->
  fst (export_results R export_all filter_type combo_type results w)
  = Return (Document
      {| header :=
           if existsb has_next_retry selected then four_columns else three_columns;
         records :=
           List.map
             (fun r =>
                [Some (VStr (phone r)); Some (VStatus (status r));
                 Some (VTime (check_time r))]
                ++ (if existsb has_next_retry selected
                    then [VTime <$> next_retry r] else []))
             selected |}).
Proof.
  intros Hne Hsel Hne'.
  destruct results as [|r0 rs]; [contradiction|].
  unfold export_results, bind at 1.
  rewrite (surjective_pairing (select_results R _ _ _ _ w)), Hsel.
  destruct selected as [|r1 sel]; [contradiction|].
  unfold bind, datetime_now, ret. cbn [fst].
  now rewrite table_of_DataFrame.
Qed.

Lemma export_columns_follow_results_witness :
  fst (export_results shipped false "on" ""
         [found_on_whatsapp; not_found; found_on_whatsapp] (initial None))
  = Return (Document
      {| header := three_columns;
         records :=
           let record :=
             [Some (VStr (py "+2348012345678")); Some (VStatus on_whatsapp);
              Some (VTime 1762160400000000)] in
           [record; record] |}).
Proof.
  apply (export_columns_follow_results shipped false "on" ""
           [found_on_whatsapp; not_found; found_on_whatsapp]
           [found_on_whatsapp; found_on_whatsapp] (initial None)).
  - discriminate.
  - reflexivity.
  - discriminate.
Defined.

Example export_with_retry_column :
  fst (export_results shipped true "" "" [found_on_whatsapp; not_found] (initial None))
  = Return (Document
      {| header := four_columns;
         records :=
           [[Some (VStr (py "+2348012345678")); Some (VStatus on_whatsapp);
             Some (VTime 1762160400000000); None];
            [Some (VStr (py "+2348023456789")); Some (VStatus not_on_whatsapp);
             Some (VTime 1762160401000000); Some (VTime 1762246801000000)]] |}).
Proof. reflexivity. Qed.

(** C9 fails when no exported result has a retry time: three columns. *)
Lemma exports_four_columns_counterexample :
  ~ exports_four_columns shipped [found_on_whatsapp] (initial None).
Proof.
  intros H. destruct H as (file & Hf & Hh & _); [discriminate|].
  vm_compute in Hf. injection Hf as <-. discriminate Hh.
Qed.

(** ** C10: loading the ledger *)

(** C10: at start a missing [data.json] leaves both maps empty; a file
    that is not JSON makes [load_from_file] raise the decoding error, and
    the start fail, and so does a JSON document that is not an object;
    only a missing file or a JSON object lets the load return. *)
Theorem load_tolerates_only_missing_file :
  startup None = (Return tt, initial None) /\
  checked_numbers (snd (startup None)) = ∅ /\
  user_data (snd (startup None)) = ∅ /\
  (forall raw,
     startup (Some (Garbled raw))
     = (Raise JSONDecodeError, initial (Some (Garbled raw)))) /\
  (forall w raw,
     data_json w = Some (Garbled raw) ->
     load_from_file w = (Raise JSONDecodeError, w)) /\
  (forall w,
     fst (load_from_file w) = Return tt <->
     data_json w = None \/
     exists checked users, data_json w = Some (Parsed (JObject checked users))).
Proof.
  do 4 (split; [reflexivity|]). split.
  - intros w raw Hw.
    unfold load_from_file, try_except, bind, open_read. now rewrite Hw.
  - intros w. unfold load_from_file, try_except, bind, open_read. split.
    + destruct (data_json w) as [[raw | [checked users|]]|]; cbn; intros H;
        try discriminate H; eauto.
    + intros [-> | (checked & users & ->)]; reflexivity.
Qed.

Example reload_after_save :
  let w := snd (set_retry_and_check shipped Skip [py "08023456789"] 7 (initial None)) in
  checked_numbers (snd (startup (data_json w))) = checked_numbers w /\
  user_data (snd (startup (data_json w))) = user_data w.
Proof. vm_compute. auto. Qed.

(** ** End to end: scenario A *)

Example scenario_A :
  List.map (fun r => (phone r, status r, next_retry r))
    (match fst (set_retry_and_check shipped (Number 24)
                  (extract_numbers shipped (py "+2348012345678, 08023456789"))
                  7 (initial None)) with
     | Return (Checked results) => results
     | _ => []
     end)
  = [(py "+2348012345678", on_whatsapp, None);
     (py "+2348023456789", not_on_whatsapp, Some 1762246801000000)].
Proof. vm_compute. reflexivity. Qed.

(** * Further properties *)

(** ** White space *)


Lemma lstrip_split (s : str) :
  exists ws, s = ws ++ lstrip s /\ Forall (fun c => isspace c = true) ws.
Proof.
  induction s as [|c s (ws & Hs & Hws)]; cbn.
  - exists []. split; [reflexivity | constructor].
  - destruct (isspace c) eqn:Hc.
    + exists (c :: ws). split; [cbn; now f_equal | now constructor].
    + exists []. split; [reflexivity | constructor].
Qed.

Lemma lstrip_spaces (ws s : str) :
  Forall (fun c => isspace c = true) ws -> lstrip (ws ++ s) = lstrip s.
Proof. induction 1 as [|c ws Hc _ IH]; cbn; [reflexivity | now rewrite Hc]. Qed.

Lemma lstrip_all_spaces (ws : str) :
  Forall (fun c => isspace c = true) ws -> lstrip ws = [].
Proof. intros H. rewrite <- (app_nil_r ws). now rewrite lstrip_spaces. Qed.

Lemma lstrip_app (s ws : str) :
  Forall (fun c => isspace c = true) ws ->
  lstrip (s ++ ws) = if decide (lstrip s = []) then [] else lstrip s ++ ws.
Proof.
  intros Hws. induction s as [|c s IH]; cbn.
  - now apply lstrip_all_spaces.
  - destruct (isspace c); [exact IH|].
    destruct (decide (c :: s = [])); [discriminate | reflexivity].
Qed.

Lemma rstrip_spaces (s ws : str) :
  Forall (fun c => isspace c = true) ws -> rstrip (s ++ ws) = rstrip s.
Proof.
  intros Hws. unfold rstrip. rewrite rev_app_distr.
  rewrite lstrip_spaces; [reflexivity | now apply List.Forall_rev].
Qed.

Lemma rstrip_split (s : str) :
  exists ws, s = rstrip s ++ ws /\ Forall (fun c => isspace c = true) ws.
Proof.
  destruct (lstrip_split (rev s)) as (ws & Hs & Hws).
  exists (rev ws). split; [|now apply List.Forall_rev].
  unfold rstrip. rewrite <- rev_app_distr, <- Hs. now rewrite rev_involutive.
Qed.





Lemma strip_padding (ws1 s ws2 : str) :
  Forall (fun c => isspace c = true) ws1 ->
  Forall (fun c => isspace c = true) ws2 ->
  strip (ws1 ++ s ++ ws2) = strip s.
Proof.
  intros H1 H2. unfold strip. rewrite lstrip_spaces by exact H1.
  rewrite lstrip_app by exact H2.
  destruct (decide (lstrip s = [])) as [-> | _]; [reflexivity|].
  now apply rstrip_spaces.
Qed.

Lemma in_lstrip (c : N) (s : str) : In c (lstrip s) -> In c s.
Proof.
  destruct (lstrip_split s) as (ws & Hs & _). intros H.
  rewrite Hs. apply in_or_app. now right.
Qed.

Lemma in_strip (c : N) (s : str) : In c (strip s) -> In c s.
Proof.
  intros H. apply in_lstrip.
  destruct (rstrip_split (lstrip s)) as (ws & Hs & _).
  rewrite Hs. apply in_or_app. now left.
Qed.

Lemma strip_keeps (c : N) (s : str) :
  isspace c = false -> In c s -> In c (strip s).
Proof.
  intros Hc H.
  assert (Hspace : forall ws, Forall (fun c => isspace c = true) ws -> ~ In c ws).
  { intros ws Hws Hin. rewrite Forall_forall in Hws.
    apply list_elem_of_In, Hws in Hin. congruence. }
  destruct (lstrip_split s) as (ws1 & Hs1 & Hws1).
  destruct (rstrip_split (lstrip s)) as (ws2 & Hs2 & Hws2).
  rewrite Hs1 in H. apply in_app_or in H as [H | H]; [now apply Hspace in H|].
  rewrite Hs2 in H. apply in_app_or in H as [H | H]; [exact H|].
  now apply Hspace in H.
Qed.

(** ** More on the normaliser *)

(** X1: whatever the string, the normaliser returns a string, never
    [None]; it starts with [+] and every further character is a digit or
    another [+]. *)
Theorem clean_phone_number_shape (R : Runtime) (x : str) :
  exists rest,
    clean_phone_number R x = Some (43%N :: rest) /\
    Forall (fun c => isdigit R c = true \/ c = 43%N) rest.
Proof.
  destruct (digits_shape R x) as (rest & Hx & Hrest).
  exists rest. split; [unfold clean_phone_number; now rewrite Hx|].
  eapply Forall_impl; [exact Hrest|]. intros c Hc. cbn in Hc.
  unfold keep in Hc. apply orb_true_iff in Hc as [Hc | Hc]; [now left|].
  right. now apply N.eqb_eq.
Qed.

Lemma digits_of_clean (R : Runtime) (s : str) :
  Forall (fun c => isspace c = false) s ->
  digits R s
  = List.filter (keep R)
      (if startswith s (py "0") then py "+234" ++ List.tl s
       else if startswith s (py "234") then py "+" ++ s
       else if negb (startswith s (py "+")) then py "+" ++ s
       else s).
Proof. intros Hs. unfold digits. now rewrite strip_no_space. Qed.

(** X2: the three spellings the bot announces for a Nigerian number, with
    the trunk [0], with [234] and with [+234] before the same digits,
    normalise to the same string, [+234] and the digits. *)
Theorem three_spellings_agree (R : Runtime) (d : str) :
  (forall c, isdigit R c = true -> isspace c = false) ->
  (forall c, (48 <= c <= 57)%N -> isdigit R c = true) ->
  Forall (fun c => isdigit R c = true) d ->
  clean_phone_number R (py "0" ++ d) = Some (py "+234" ++ d) /\
  clean_phone_number R (py "234" ++ d) = Some (py "+234" ++ d) /\
  clean_phone_number R (py "+234" ++ d) = Some (py "+234" ++ d).
Proof.
  intros Hds Hascii Hd.
  assert (Hsp : Forall (fun c => isspace c = false) d)
    by (eapply Forall_impl; [exact Hd | exact Hds]).
  assert (Hk : Forall (fun c => keep R c = true) (py "+234" ++ d)).
  { change (py "+234" ++ d) with (43%N :: 50%N :: 51%N :: 52%N :: d).
    repeat constructor; unfold keep;
      try (rewrite Hascii by lia; reflexivity); try apply orb_true_r.
    eapply Forall_impl; [exact Hd|]. intros c Hc. cbn. unfold keep. now rewrite Hc. }
  unfold clean_phone_number. repeat split; f_equal.
  - rewrite digits_of_clean by (now constructor).
    change (startswith (py "0" ++ d) (py "0")) with true. cbv iota.
    change (List.tl (py "0" ++ d)) with d. now apply filter_all.
  - rewrite digits_of_clean by (now repeat constructor).
    change (startswith (py "234" ++ d) (py "0")) with false.
    change (startswith (py "234" ++ d) (py "234")) with true. cbv iota.
    change (py "+" ++ py "234" ++ d) with (py "+234" ++ d). now apply filter_all.
  - rewrite digits_of_clean by (now repeat constructor).
    change (startswith (py "+234" ++ d) (py "0")) with false.
    change (startswith (py "+234" ++ d) (py "234")) with false.
    change (startswith (py "+234" ++ d) (py "+")) with true. cbv iota. cbn [negb].
    now apply filter_all.
Qed.

Lemma isdigit_ascii_digits (c : N) : (48 <= c <= 57)%N -> isdigit_ascii c = true.
Proof.
  intros [H1 H2]. unfold isdigit_ascii.
  apply andb_true_iff. split; now apply N.leb_le.
Qed.

Lemma three_spellings_agree_witness :
  clean_phone_number shipped (py "0" ++ py "8012345678")
  = Some (py "+234" ++ py "8012345678") /\
  clean_phone_number shipped (py "234" ++ py "8012345678")
  = Some (py "+234" ++ py "8012345678") /\
  clean_phone_number shipped (py "+234" ++ py "8012345678")
  = Some (py "+234" ++ py "8012345678").
Proof.
  apply (three_spellings_agree shipped (py "8012345678")).
  - exact isdigit_ascii_not_space.
  - exact isdigit_ascii_digits.
  - apply Forall_forall. intros c Hc. apply list_elem_of_In in Hc.
    cbn in Hc. intuition (subst; reflexivity).
Defined.

(** X3: white space around the raw string does not change the result. *)
Theorem padding_is_ignored (R : Runtime) (ws1 x ws2 : str) :
  Forall (fun c => isspace c = true) ws1 ->
  Forall (fun c => isspace c = true) ws2 ->
  clean_phone_number R (ws1 ++ x ++ ws2) = clean_phone_number R x.
Proof.
  intros H1 H2. unfold clean_phone_number, digits.
  now rewrite strip_padding.
Qed.

Lemma padding_is_ignored_witness :
  clean_phone_number shipped ([32; 9]%N ++ py "0801 234 5678" ++ [13; 10; 160]%N)
  = clean_phone_number shipped (py "0801 234 5678").
Proof.
  apply (padding_is_ignored shipped [32; 9]%N (py "0801 234 5678") [13; 10; 160]%N);
    repeat constructor.
Defined.

(** ** The extraction of numbers *)

Lemma split_cons (sep : N) (s : str) : exists part parts, split sep s = part :: parts.
Proof.
  induction s as [|c s (part & parts & IH)]; cbn; [now eauto|].
  destruct (c =? sep)%N; [now eauto|]. rewrite IH. now eauto.
Qed.


Lemma split_chars (sep : N) (s part : str) (c : N) :
  In part (split sep s) -> In c part -> In c s.
Proof.
  revert part. induction s as [|a s IH]; cbn; intros part Hp Hc.
  - destruct Hp as [<- | []]. exact Hc.
  - destruct (a =? sep)%N.
    + destruct Hp as [<- | Hp]; [destruct Hc | right; now apply (IH part)].
    + destruct (split_cons sep s) as (p & ps & Hs). rewrite Hs in Hp, IH.
      destruct Hp as [<- | Hp].
      * destruct Hc as [-> | Hc]; [now left | right].
        apply (IH p); [now left | exact Hc].
      * right. apply (IH part); [now right | exact Hc].
Qed.

Lemma split_covers (sep : N) (s : str) (c : N) :
  In c s -> c <> sep -> exists part, In part (split sep s) /\ In c part.
Proof.
  intros Hc Hsep. induction s as [|a s IH]; [destruct Hc|]. cbn.
  destruct (split_cons sep s) as (p & ps & Hs). rewrite Hs in *.
  destruct (N.eqb_spec a sep) as [-> | Ha].
  - destruct Hc as [-> | Hc]; [congruence|].
    destruct (IH Hc) as (part & Hp & Hin). exists part. split; [now right | exact Hin].
  - destruct Hc as [-> | Hc].
    + exists (c :: p). split; now left.
    + destruct (IH Hc) as (part & [<- | Hp] & Hin).
      * exists (a :: p). split; [now left | now right].
      * exists part. split; [now right | exact Hin].
Qed.

Lemma in_extract_numbers (R : Runtime) (text part : str) :
  In part (extract_numbers R text) <->
  part <> [] /\ existsb (isdigit R) part = true /\
  exists line raw,
    In line (split 10 text) /\ In raw (split 44 line) /\ part = strip raw.
Proof.
  unfold extract_numbers. rewrite in_flat_map. split.
  - intros (line & Hline & Hp). apply filter_In in Hp as [Hp Hok].
    apply in_map_iff in Hp as (raw & <- & Hraw).
    apply andb_true_iff in Hok as [Hne Hd].
    split; [intros E; rewrite E in Hne; discriminate Hne|].
    split; [exact Hd|]. now exists line, raw.
  - intros (Hne & Hd & line & raw & Hline & Hraw & ->).
    exists line. split; [exact Hline|]. apply filter_In. split.
    + now apply in_map.
    + apply andb_true_iff. split; [|exact Hd].
      destruct (strip raw); [contradiction | reflexivity].
Qed.



Lemma existsb_in (R : Runtime) (s : str) :
  existsb (isdigit R) s = true <-> exists c, In c s /\ isdigit R c = true.
Proof. apply existsb_exists. Qed.

Lemma extract_numbers_nil (R : Runtime) (text : str) :
  (forall c, isdigit R c = true -> isspace c = false) ->
  isdigit R 44 = false ->
  extract_numbers R text = [] <-> existsb (isdigit R) text = false.
Proof.
  intros Hds Hcomma. split.
  - intros Hnil. apply not_true_is_false. intros Hd.
    apply existsb_in in Hd as (c & Hc & Hdc).
    assert (Hnl : c <> 10%N) by (intros ->; now apply Hds in Hdc).
    assert (Hcm : c <> 44%N) by (intros ->; congruence).
    destruct (split_covers 10 text c Hc Hnl) as (line & Hline & Hcl).
    destruct (split_covers 44 line c Hcl Hcm) as (raw & Hraw & Hcr).
    assert (Hin : In c (strip raw)) by (apply strip_keeps; [now apply Hds | exact Hcr]).
    assert (Hp : In (strip raw) (extract_numbers R text)).
    { apply in_extract_numbers. split; [intros E; now rewrite E in Hin|].
      split; [apply existsb_in; now exists c|]. now exists line, raw. }
    now rewrite Hnil in Hp.
  - intros Hno. destruct (extract_numbers R text) as [|part parts] eqn:He;
      [reflexivity|].
    assert (Hp : In part (extract_numbers R text)) by (rewrite He; now left).
    apply in_extract_numbers in Hp as (_ & Hd & line & raw & Hline & Hraw & ->).
    apply existsb_in in Hd as (c & Hc & Hdc).
    assert (Hd : existsb (isdigit R) text = true).
    { apply existsb_in. exists c. split; [|exact Hdc].
      apply in_strip in Hc.
      apply (split_chars 10 text line c Hline).
      now apply (split_chars 44 line raw). }
    congruence.
Qed.

(** X5: for a non-empty text, [process_numbers] answers that it found no
    valid number exactly when the text holds no digit at all; otherwise it
    asks for the retry time, with a non-empty list of numbers.  A digit is
    neither white space nor the comma, as in Unicode. *)
Theorem no_valid_numbers_iff_no_digit (R : Runtime) (text : str)
    (message_text : option str) :
  (forall c, isdigit R c = true -> isspace c = false) ->
  isdigit R 44 = false ->
  text <> [] ->
  (process_numbers R (Some text) message_text = NoValidNumbers <->
   existsb (isdigit R) text = false) /\
  (existsb (isdigit R) text = true ->
   process_numbers R (Some text) message_text
   = AskRetryTime (extract_numbers R text) /\
   extract_numbers R text <> []).
Proof.
  intros Hds Hcomma Hne.
  pose proof (extract_numbers_nil R text Hds Hcomma) as Hnil.
  destruct text as [|c0 text0]; [contradiction|].
  unfold process_numbers. cbn [truthy negb andb default from_option id].
  destruct (extract_numbers R (c0 :: text0)) as [|p ps] eqn:He.
  - split; [split; [intros _; now apply Hnil | reflexivity]|].
    intros Hd. destruct Hnil as [Hnil _]. rewrite Hnil in Hd by reflexivity.
    discriminate Hd.
  - split; [split; [discriminate|]|].
    + intros Hd. apply Hnil in Hd. discriminate Hd.
    + intros _. split; [reflexivity | discriminate].
Qed.

Lemma no_valid_numbers_iff_no_digit_witness :
  (process_numbers shipped (Some (py "call me, please")) None = NoValidNumbers <->
   existsb (isdigit shipped) (py "call me, please") = false) /\
  (existsb (isdigit shipped) (py "call me, please") = true ->
   process_numbers shipped (Some (py "call me, please")) None
   = AskRetryTime (extract_numbers shipped (py "call me, please")) /\
   extract_numbers shipped (py "call me, please") <> []).
Proof.
  apply (no_valid_numbers_iff_no_digit shipped (py "call me, please") None).
  - exact isdigit_ascii_not_space.
  - reflexivity.
  - discriminate.
Defined.

(** ** More on the checker *)


Lemma stub_answers (y : str) :
  y <> [] ->
  _check_with_api y = Answer on_whatsapp \/ _check_with_api y = Answer not_on_whatsapp.
Proof.
  intros Hy. unfold _check_with_api.
  destruct (last y) as [c|] eqn:Hl.
  - destruct (existsb (N.eqb c) (py "02468")); auto.
  - apply last_None in Hl. contradiction.
Qed.

(** X7: with the shipped backend, and [pywhatkit] importable or not
    installed, [check_number] answers [on_whatsapp] or [not_on_whatsapp]
    for every string, and never [invalid] or [error]: it is [on_whatsapp]
    exactly when the normalised number ends in one of 0, 2, 4, 6, 8. *)
Theorem shipped_check_is_binary (R : Runtime) (x : str) (w : World) :
  backend R = _check_with_api ->
  pywhatkit R = None \/ pywhatkit R = Some ImportError ->
  exists s,
    fst (check_number R x w) = Return s /\
    (s = on_whatsapp \/ s = not_on_whatsapp) /\
    (s = on_whatsapp <->
     exists c, last (digits R x) = Some c /\ In c (py "02468")).
Proof.
  intros Hb Himp. exists (verdict R x).
  split; [now rewrite check_number_eq|].
  assert (Hv : verdict R x = answered (_check_with_api (digits R x))).
  { unfold verdict. rewrite Hb. now destruct Himp as [-> | ->]. }
  rewrite Hv. destruct (digits_shape R x) as (rest & Hx & _).
  split.
  - destruct (stub_answers (digits R x)) as [-> | ->]; [now rewrite Hx | auto..].
  - unfold _check_with_api. destruct (last (digits R x)) as [c|] eqn:Hl.
    + destruct (existsb (N.eqb c) (py "02468")) eqn:He; cbn.
      * split; [intros _|reflexivity]. exists c. split; [reflexivity|].
        apply existsb_exists in He as (d & Hd & Hcd).
        apply N.eqb_eq in Hcd. now subst d.
      * split; [discriminate|]. intros (c' & Hc' & Hin).
        injection Hc' as <-.
        assert (existsb (N.eqb c) (py "02468") = true)
          by (apply existsb_exists; exists c; split; [exact Hin | apply N.eqb_refl]).
        congruence.
    + apply last_None in Hl. rewrite Hx in Hl. discriminate Hl.
Qed.

Lemma shipped_check_is_binary_witness :
  exists s,
    fst (check_number shipped (py "(0802) 345-6788") (initial None)) = Return s /\
    (s = on_whatsapp \/ s = not_on_whatsapp) /\
    (s = on_whatsapp <->
     exists c, last (digits shipped (py "(0802) 345-6788")) = Some c /\
               In c (py "02468")).
Proof.
  apply (shipped_check_is_binary shipped (py "(0802) 345-6788") (initial None)).
  - reflexivity.
  - right. reflexivity.
Defined.

(** X8: when [pywhatkit] is imported and the backend itself raises
    [ImportError], the [except ImportError] clause takes it for a missing
    package and asks the backend a second time; the answer is [error]. *)
Theorem backend_import_error_asks_twice (R : Runtime) (x : str) (w : World) :
  pywhatkit R = None ->
  backend R (digits R x) = Fails ImportError ->
  check_number R x w
  = (Return error, log_call (digits R x) (log_call (digits R x) w)).
Proof.
  intros Himp Hb. rewrite check_number_eq.
  unfold verdict, after_check. now rewrite Himp, Hb.
Qed.

Lemma backend_import_error_asks_twice_witness :
  let R := {| isdigit := isdigit_ascii; pywhatkit := None;
              backend := fun _ => Fails ImportError; now := ticking |} in
  check_number R (py "08023456789") (initial None)
  = (Return error,
     log_call (digits R (py "08023456789"))
       (log_call (digits R (py "08023456789")) (initial None))).
Proof.
  apply (backend_import_error_asks_twice
           {| isdigit := isdigit_ascii; pywhatkit := None;
              backend := fun _ => Fails ImportError; now := ticking |}
           (py "08023456789") (initial None)); reflexivity.
Defined.

Lemma after_check_calls (R : Runtime) (x : str) (w : World) :
  pywhatkit R = Some ImportError \/
  (pywhatkit R = None /\ forall y, backend R y <> Fails ImportError) ->
  calls (after_check R x w) = calls w ++ [digits R x].
Proof.
  unfold after_check. intros [-> | [-> Hb]]; [reflexivity|].
  specialize (Hb (digits R x)).
  destruct (backend R (digits R x)) as [|[]]; try reflexivity. now contradiction Hb.
Qed.

Lemma update_status_calls (R : Runtime) p s h w :
  calls (snd (update_status R p s h w)) = calls w.
Proof.
  rewrite update_status_eq. cbn.
  match goal with |- context [if ?b then _ else _] => destruct b end; reflexivity.
Qed.

Lemma check_item_calls (R : Runtime) h number w :
  pywhatkit R = Some ImportError \/
  (pywhatkit R = None /\ forall y, backend R y <> Fails ImportError) ->
  calls (snd (check_item R h number w)) = calls w ++ [digits R number].
Proof.
  intros Hr. rewrite check_item_eq. cbn [snd].
  transitivity (calls (snd (update_status R number (verdict R number) h
                              (after_check R number w)))).
  { destruct (status_eqb (verdict R number) not_on_whatsapp); reflexivity. }
  rewrite update_status_calls. now apply after_check_calls.
Qed.

(** X9: in a batch the backend is asked exactly once per input, in the
    order of the inputs, for the normalised number; what the ledger holds
    about a number, such as a retry time still ahead, never spares the
    call, and an input that comes twice is asked twice.  This is for
    [pywhatkit] not installed, or installed with a backend that does not
    raise [ImportError]. *)
Theorem batch_asks_once_per_input (R : Runtime) (h : Z) (numbers : list (list N))
    (results : list CheckResult) (w : World) :
  pywhatkit R = Some ImportError \/
  (pywhatkit R = None /\ forall y, backend R y <> Fails ImportError) ->
  calls (snd (check_loop R h numbers results w))
  = calls w ++ List.map (digits R) numbers.
Proof.
  intros Hr. revert results w.
  induction numbers as [|number numbers IH]; intros results w.
  - cbn. now rewrite app_nil_r.
  - cbn [check_loop List.map]. unfold bind.
    rewrite (surjective_pairing (check_item R h number w)).
    rewrite check_item_eq at 1. cbn [fst].
    rewrite IH, check_item_calls by exact Hr. now rewrite <- app_assoc.
Qed.

Lemma batch_asks_once_per_input_witness :
  calls (snd (check_loop shipped 24
                [py "08023456789"; py "+2348023456789"; py "08023456789"] []
                (initial None)))
  = calls (initial None)
    ++ List.map (digits shipped)
         [py "08023456789"; py "+2348023456789"; py "08023456789"].
Proof.
  apply (batch_asks_once_per_input shipped 24
           [py "08023456789"; py "+2348023456789"; py "08023456789"] []
           (initial None)).
  left. reflexivity.
Defined.

(** ** More on the ledger *)

Lemma update_status_user_data (R : Runtime) p s h w :
  user_data (snd (update_status R p s h w)) = user_data w.
Proof.
  rewrite update_status_eq. cbn.
  match goal with |- context [if ?b then _ else _] => destruct b end; reflexivity.
Qed.

(** X10: an upsert writes the entry of its key, with the new status and
    the time of the upsert as last check, whatever was there before, and
    nothing else: every other entry, the user data and the calls made are
    as before, and the ledger has one key more only when the key is new. *)
Theorem update_status_touches_one_key (R : Runtime) (p : list N)
    (s : VerificationStatus) (h : Z) (w : World) :
  let w' := snd (update_status R p s h w) in
  (forall q : list N, q <> p -> checked_numbers w' !! q = checked_numbers w !! q) /\
  (exists r, checked_numbers w' !! p = Some r /\
             rec_status r = s /\ last_check r = now R (clock w)) /\
  user_data w' = user_data w /\
  calls w' = calls w /\
  size (checked_numbers w')
  = match checked_numbers w !! p with
    | Some _ => size (checked_numbers w)
    | None => S (size (checked_numbers w))
    end.
Proof.
  cbn zeta. rewrite update_status_store, update_status_user_data, update_status_calls.
  split; [|split; [|split; [|split]]]; try reflexivity.
  - intros q Hq. now apply lookup_insert_ne.
  - eexists. split; [apply lookup_insert_eq|]. split; reflexivity.
  - rewrite map_size_insert. now destruct (checked_numbers w !! p).
Qed.

Lemma upserted_well_formed (R : Runtime) (previous : option StatusRecord)
    (s : VerificationStatus) (h : Z) (n : nat) :
  match previous with Some r => well_formed r | None => True end ->
  well_formed (upserted R previous s h n).
Proof.
  intros Hp. split; cbn.
  - destruct previous as [r|]; [destruct Hp; lia | lia].
  - apply retry_present_iff.
Qed.

Lemma insert_upserted_well_formed (R : Runtime) (m : gmap (list N) StatusRecord)
    (p : list N) (s : VerificationStatus) (h : Z) (n : nat) :
  map_Forall (fun _ r => well_formed r) m ->
  map_Forall (fun _ r => well_formed r) (<[p := upserted R (m !! p) s h n]> m).
Proof.
  intros Hm. apply map_Forall_insert_2; [|exact Hm].
  apply upserted_well_formed.
  destruct (m !! p) as [r|] eqn:Hr; [now apply (Hm p r) | exact I].
Qed.

(** X11: the records of the ledger stay well formed through a batch: if
    every record has at least one attempt, and a retry time exactly when
    its status is [not_on_whatsapp], before the batch, so it is after it.
    An empty ledger is in this case. *)
Theorem batch_keeps_records_well_formed (R : Runtime) (h : Z)
    (numbers : list (list N)) (results : list CheckResult) (w : World) :
  map_Forall (fun _ r => well_formed r) (checked_numbers w) ->
  map_Forall (fun _ r => well_formed r)
    (checked_numbers (snd (check_loop R h numbers results w))).
Proof.
  revert results w.
  induction numbers as [|number numbers IH]; intros results w Hw; [exact Hw|].
  cbn [check_loop]. unfold bind.
  rewrite (surjective_pairing (check_item R h number w)).
  rewrite check_item_eq at 1. cbn [fst].
  apply IH. rewrite check_item_store.
  now apply insert_upserted_well_formed.
Qed.

Lemma batch_keeps_records_well_formed_witness :
  map_Forall (fun _ r => well_formed r)
    (checked_numbers
       (snd (check_loop shipped 24 [py "08023456789"; py "08023456789"] []
               (initial None)))).
Proof.
  apply (batch_keeps_records_well_formed shipped 24
           [py "08023456789"; py "08023456789"] [] (initial None)).
  apply map_Forall_empty.
Defined.

(** ** More on loading and saving *)

(** X12: when [data.json] holds a JSON object, loading replaces both
    maps by what the object holds: nothing of what was in memory is kept,
    and a key that is missing from the object gives an empty map. *)
Theorem load_replaces_both_maps (w : World)
    (checked : option (gmap (list N) StatusRecord))
    (users : option (gmap Z UserRecord)) :
  data_json w = Some (Parsed (JObject checked users)) ->
  exists w',
    load_from_file w = (Return tt, w') /\
    checked_numbers w' = default ∅ checked /\
    user_data w' = default ∅ users /\
    data_json w' = data_json w /\
    saves w' = saves w.
Proof.
  intros Hw. eexists. split.
  - unfold load_from_file, try_except, bind, open_read. rewrite Hw. reflexivity.
  - repeat split.
Qed.

Lemma load_replaces_both_maps_witness :
  exists w',
    load_from_file
      (set_checked_numbers
         {[ py "+2348012345678" := upserted shipped None on_whatsapp 24 0 ]}
         (initial (Some (Parsed (JObject None (Some ∅))))))
    = (Return tt, w') /\
    checked_numbers w' = default ∅ None /\
    user_data w' = default ∅ (Some ∅) /\
    data_json w' = Some (Parsed (JObject None (Some ∅))) /\
    saves w' = 0%nat.
Proof.
  apply (load_replaces_both_maps
           (set_checked_numbers
              {[ py "+2348012345678" := upserted shipped None on_whatsapp 24 0 ]}
              (initial (Some (Parsed (JObject None (Some ∅))))))
           None (Some ∅)).
  reflexivity.
Defined.

Lemma after_check_saves (R : Runtime) x w : saves (after_check R x w) = saves w.
Proof.
  unfold after_check.
  destruct (pywhatkit R) as [e|];
    [destruct (exn_eqb ImportError e) | destruct (backend R (digits R x)) as [|[]]];
    reflexivity.
Qed.

Lemma check_item_saves (R : Runtime) h x w :
  (saves w <= saves (snd (check_item R h x w)))%nat.
Proof.
  rewrite check_item_eq. cbn [snd].
  transitivity (saves (snd (update_status R x (verdict R x) h (after_check R x w)))).
  - rewrite update_status_saves, after_check_saves. destruct (_ =? _)%nat; lia.
  - destruct (status_eqb (verdict R x) not_on_whatsapp); cbn; lia.
Qed.

Lemma check_loop_saves (R : Runtime) h (numbers : list (list N)) :
  forall results w,
    (saves w <= saves (snd (check_loop R h numbers results w)))%nat.
Proof.
  induction numbers as [|x numbers IH]; intros results w; [reflexivity|].
  cbn [check_loop]. unfold bind.
  rewrite (surjective_pairing (check_item R h x w)).
  rewrite check_item_eq at 1. cbn [fst].
  etransitivity; [apply (check_item_saves R h x w) | apply IH].
Qed.

Lemma set_retry_and_check_eq (R : Runtime) (text : Reply) (h : Z)
    (numbers : list (list N)) (user_id : Z) (w : World) :
  read_retry_hours text = Some h -> numbers <> [] ->
  let wl := snd (check_loop R h numbers [] w) in
  set_retry_and_check R text numbers user_id w
  = (Return (Checked (results_from R h numbers (clock w))),
     saved (set_user_data
              (<[user_id := {| user_last_check := now R (clock wl);
                               total_checked := Z.of_nat (length numbers) |}]>
                 (user_data wl))
              (tick wl))).
Proof.
  intros Hh Hne. cbn zeta. unfold set_retry_and_check. rewrite Hh.
  destruct numbers as [|number numbers]; [contradiction|].
  unfold bind at 1.
  rewrite (surjective_pairing (check_loop R h (number :: numbers) [] w)).
  rewrite check_loop_eq. reflexivity.
Qed.

(** X13: a batch that ran ends with a save: the file then holds the
    ledger and the user data as they are in memory, with the entry of the
    user set to the number of inputs, so that a restart from the file
    brings back both maps as the batch left them. *)
Theorem batch_ends_saved (R : Runtime) (text : Reply) (numbers : list (list N))
    (user_id : Z) (w : World) (results : list CheckResult) :
  fst (set_retry_and_check R text numbers user_id w) = Return (Checked results) ->
  let w' := snd (set_retry_and_check R text numbers user_id w) in
  data_json w'
  = Some (Parsed (JObject (Some (checked_numbers w')) (Some (user_data w')))) /\
  checked_numbers (snd (startup (data_json w'))) = checked_numbers w' /\
  user_data (snd (startup (data_json w'))) = user_data w' /\
  total_checked <$> user_data w' !! user_id = Some (Z.of_nat (length numbers)) /\
  (saves w < saves w')%nat.
Proof.
  intros Hr. cbn zeta.
  destruct (read_retry_hours text) as [h|] eqn:Hh;
    [|unfold set_retry_and_check in Hr; rewrite Hh in Hr; discriminate Hr].
  destruct numbers as [|number numbers];
    [unfold set_retry_and_check in Hr; rewrite Hh in Hr; discriminate Hr|].
  rewrite (set_retry_and_check_eq R text h) by (assumption || discriminate).
  cbn [snd saved write_data_json data_json checked_numbers user_data saves
       set_user_data tick].
  split; [reflexivity|]. split; [reflexivity|]. split; [reflexivity|].
  split; [now rewrite lookup_insert_eq|].
  pose proof (check_loop_saves R h (number :: numbers) [] w). lia.
Qed.

Lemma batch_ends_saved_witness :
  let w' := snd (set_retry_and_check shipped Skip [py "08023456789"] 7 (initial None)) in
  data_json w'
  = Some (Parsed (JObject (Some (checked_numbers w')) (Some (user_data w')))) /\
  checked_numbers (snd (startup (data_json w'))) = checked_numbers w' /\
  user_data (snd (startup (data_json w'))) = user_data w' /\
  total_checked <$> user_data w' !! 7 = Some (Z.of_nat (length [py "08023456789"])) /\
  (saves (initial None) < saves w')%nat.
Proof.
  apply (batch_ends_saved shipped Skip [py "08023456789"] 7 (initial None)
           (results_from shipped 24 [py "08023456789"] 0)).
  reflexivity.
Defined.

(** X14: a reply that is no number, a number outside 1..168, and an empty
    list of numbers are turned down before anything is done: the state is
    left as it is, with no check, no upsert, no save and no reading of
    the clock; and [/skip] does what the reply 24 does. *)
Theorem rejected_replies_change_nothing (R : Runtime) (numbers : list (list N))
    (user_id : Z) (w : World) :
  set_retry_and_check R NotANumber numbers user_id w = (Return AskAgain, w) /\
  (forall h, h < 1 \/ 168 < h ->
     set_retry_and_check R (Number h) numbers user_id w = (Return AskAgain, w)) /\
  (forall text, exists reply,
     set_retry_and_check R text [] user_id w = (Return reply, w) /\
     (reply = AskAgain \/ reply = NoNumbers)) /\
  set_retry_and_check R Skip numbers user_id w
  = set_retry_and_check R (Number 24) numbers user_id w.
Proof.
  split; [reflexivity|]. split; [|split; [|reflexivity]].
  - intros h Hh. unfold set_retry_and_check, read_retry_hours.
    replace ((1 <=? h) && (h <=? 168)) with false; [reflexivity|].
    symmetry. apply andb_false_iff.
    destruct Hh; [left; apply Z.leb_gt | right; apply Z.leb_gt]; lia.
  - intros text. unfold set_retry_and_check.
    destruct (read_retry_hours text); eexists; split; try reflexivity; auto.
Qed.

(** ** More on the filters and the export *)

Lemma filter_results_returns (R : Runtime) (filter_type combo_type : string)
    (results : list CheckResult) (w : World) :
  exists selected,
    fst (filter_results R filter_type combo_type results w) = Return selected /\
    sublist selected results.
Proof.
  unfold filter_results, bind, datetime_now, ret.
  repeat match goal with |- context [if ?b then _ else _] => destruct b end;
    cbn [fst]; eexists; (split; [reflexivity|]);
    first [apply filter_sublist | reflexivity].
Qed.

Lemma select_results_returns (R : Runtime) (export_all : bool)
    (filter_type combo_type : string) (results : list CheckResult) (w : World) :
  exists selected,
    fst (select_results R export_all filter_type combo_type results w)
    = Return selected /\
    sublist selected results.
Proof.
  unfold select_results. destruct export_all; cbn [negb].
  - exists results. split; reflexivity.
  - apply filter_results_returns.
Qed.

Lemma table_of_widths (selected : list CheckResult) :
  Forall (fun record => length record = length (header (table_of selected)))
    (records (table_of selected)).
Proof.
  unfold table_of. cbn [header records]. apply Forall_forall. intros record Hr.
  apply list_elem_of_In, in_map_iff in Hr as (r & <- & _).
  destruct (existsb has_next_retry selected); reflexivity.
Qed.

(** X15: an export never raises and never gives a file without records.
    It answers that there are no results exactly when the result list is
    empty; a file it gives has at least one record and at most one per
    result, and each record has as many cells as the header has columns. *)
Theorem export_is_never_empty (R : Runtime) (export_all : bool)
    (filter_type combo_type : string) (results : list CheckResult) (w : World) :
  exists out,
    fst (export_results R export_all filter_type combo_type results w) = Return out /\
    (out = NoResults <-> results = []) /\
    (forall file,
       out = Document file ->
       records file <> [] /\
       (length (records file) <= length results)%nat /\
       Forall (fun record => length record = length (header file)) (records file)).
Proof.
  destruct results as [|r0 rs].
  { exists NoResults. repeat split; discriminate. }
  destruct (select_results_returns R export_all filter_type combo_type (r0 :: rs) w)
    as (selected & Hsel & Hsub).
  unfold export_results, bind at 1.
  rewrite (surjective_pairing (select_results R _ _ _ _ w)), Hsel.
  destruct selected as [|r1 sel].
  { exists NoMatch. repeat split; discriminate. }
  exists (Document (table_of (r1 :: sel))). split.
  { unfold bind, datetime_now, ret. cbn [fst].
    now rewrite table_of_DataFrame. }
  split; [split; discriminate|].
  intros file Hf. injection Hf as <-. split; [|split].
  - discriminate.
  - unfold table_of. cbn [records]. rewrite length_map.
    now apply sublist_length.
  - apply table_of_widths.
Qed.

Lemma filter_sublist_impl {A} (f g : A -> bool) (l : list A) :
  (forall a, f a = true -> g a = true) ->
  sublist (List.filter f l) (List.filter g l).
Proof.
  intros Hfg. induction l as [|a l IH]; cbn; [constructor|].
  destruct (f a) eqn:Hf.
  - rewrite (Hfg a Hf). now constructor.
  - destruct (g a); [now constructor | exact IH].
Qed.

Lemma filter_exclusive_length {A} (f g : A -> bool) (l : list A) :
  (forall a, f a = true -> g a = false) ->
  (length (List.filter f l) + length (List.filter g l) <= length l)%nat.
Proof.
  intros Hfg. induction l as [|a l IH]; cbn; [lia|].
  destruct (f a) eqn:Hf.
  - rewrite (Hfg a Hf). cbn. lia.
  - destruct (g a); cbn; lia.
Qed.

(** X16: how the selections of one export time lie to each other: what
    the AND combination keeps is kept by the OR combination and by the
    filter [off]; what the filter [retry] keeps is kept by the OR
    combination; no result is kept by both [on] and [off], and together
    they keep no more results than there are. *)
Theorem selections_are_nested (R : Runtime) (results : list CheckResult)
    (w : World) :
  exists sel_on sel_off sel_retry sel_and sel_or,
    fst (filter_results R "on" "" results w) = Return sel_on /\
    fst (filter_results R "off" "" results w) = Return sel_off /\
    fst (filter_results R "retry" "" results w) = Return sel_retry /\
    fst (filter_results R "combo" "both_and" results w) = Return sel_and /\
    fst (filter_results R "combo" "both_or" results w) = Return sel_or /\
    sublist sel_and sel_or /\
    sublist sel_and sel_off /\
    sublist sel_retry sel_or /\
    (forall r, In r sel_on -> ~ In r sel_off) /\
    (length sel_on + length sel_off <= length results)%nat.
Proof.
  do 5 eexists. do 5 (split; [reflexivity|]).
  split; [|split; [|split; [|split]]].
  - apply filter_sublist_impl. intros r Hr.
    apply andb_true_iff in Hr as [-> _]. reflexivity.
  - apply filter_sublist_impl. intros r Hr.
    now apply andb_true_iff in Hr as [-> _].
  - apply filter_sublist_impl. intros r Hr. unfold not_expired.
    destruct (next_retry r); [rewrite Hr; apply orb_true_r | discriminate].
  - intros r Hon Hoff. apply filter_In in Hon as [_ Hon].
    apply filter_In in Hoff as [_ Hoff].
    apply status_eqb_eq in Hon, Hoff. congruence.
  - apply filter_exclusive_length. intros r Hr.
    apply status_eqb_eq in Hr. now rewrite Hr.
Qed.

(** X17: on the results of a batch the OR combination keeps everything,
    and the AND combination keeps exactly what the filter [retry] keeps:
    a result of a batch has a retry time exactly when its status is
    [not_on_whatsapp]. *)
Theorem combinations_on_batch_results (R : Runtime) (h : Z)
    (numbers : list (list N)) (w0 : World) (results : list CheckResult)
    (R' : Runtime) (w : World) :
  fst (check_loop R h numbers [] w0) = Return results ->
  fst (filter_results R' "combo" "both_or" results w) = Return results /\
  fst (filter_results R' "combo" "both_and" results w)
  = fst (filter_results R' "retry" "" results w).
Proof.
  intros Hr. rewrite check_loop_eq in Hr. injection Hr as <-. cbn [app].
  pose proof (results_from_retry R h numbers (clock w0)) as Hinv.
  rewrite Forall_forall in Hinv.
  unfold filter_results, bind, datetime_now, ret. cbn [String.eqb Ascii.eqb Bool.eqb negb fst].
  split; f_equal.
  - apply filter_all, Forall_forall. intros r Hin. cbn.
    specialize (Hinv r Hin). unfold not_expired.
    destruct (next_retry r) as [t|]; [|apply orb_true_r].
    destruct Hinv as [Hinv _]. rewrite Hinv by discriminate. reflexivity.
  - apply filter_ext_in. intros r Hin.
    specialize (Hinv r (proj2 (list_elem_of_In _ _) Hin)). unfold not_expired.
    destruct (next_retry r) as [t|].
    + destruct Hinv as [Hinv _]. rewrite Hinv by discriminate. reflexivity.
    + destruct (status_eqb (status r) not_on_whatsapp) eqn:Hs; [|reflexivity].
      apply status_eqb_eq in Hs. apply Hinv in Hs. now contradiction Hs.
Qed.

Lemma combinations_on_batch_results_witness :
  let results := results_from shipped 24 [py "08023456788"; py "08023456789"] 0 in
  fst (filter_results shipped "combo" "both_or" results (initial None))
  = Return results /\
  fst (filter_results shipped "combo" "both_and" results (initial None))
  = fst (filter_results shipped "retry" "" results (initial None)).
Proof.
  apply (combinations_on_batch_results shipped 24
           [py "08023456788"; py "08023456789"] (initial None)
           (results_from shipped 24 [py "08023456788"; py "08023456789"] 0)
           shipped (initial None)).
  reflexivity.
Defined.

(** ** The buttons *)



(** ** The statistics *)

Lemma status_counts (l : list StatusRecord) :
  length l
  = (length (List.filter (fun n => status_eqb (rec_status n) on_whatsapp) l)
     + length (List.filter (fun n => status_eqb (rec_status n) not_on_whatsapp) l)
     + length (List.filter (fun n => status_eqb (rec_status n) invalid) l)
     + length (List.filter (fun n => status_eqb (rec_status n) error) l))%nat.
Proof.
  induction l as [|n l IH]; [reflexivity|].
  cbn [List.filter length]. destruct (rec_status n); cbn; lia.
Qed.

(** X20: in the statistics the two counts add up to the total number of
    entries of the ledger, and the count shown as not on WhatsApp is the
    number of all entries that are not [on_whatsapp]: those with the
    status [invalid] or [error] are counted in it.  A user who never ran
    a batch has no last check and a total of 0. *)
Theorem show_status_counts (user_id : Z) (w : World) :
  let st := show_status user_id w in
  stat_total_checked st = size (checked_numbers w) /\
  (stat_on_whatsapp st + stat_not_on_whatsapp st)%nat = stat_total_checked st /\
  stat_on_whatsapp st = entries_with on_whatsapp w /\
  stat_not_on_whatsapp st
  = (entries_with not_on_whatsapp w + entries_with invalid w
     + entries_with error w)%nat /\
  (user_data w !! user_id = None ->
   stat_last_check st = None /\ stat_total_by_user st = 0).
Proof.
  cbn zeta. unfold show_status, entries_with.
  cbn [stat_total_checked stat_on_whatsapp stat_not_on_whatsapp stat_last_check
       stat_total_by_user].
  pose proof (status_counts (List.map snd (map_to_list (checked_numbers w)))) as Hc.
  rewrite length_map, length_map_to_list in Hc.
  split; [reflexivity|]. split; [lia|]. split; [reflexivity|]. split; [lia|].
  intros ->. split; reflexivity.
Qed.

(** ** The progress messages *)

Lemma check_loop_reporting_eq (R : Runtime) (h : Z) (total : nat)
    (numbers : list (list N)) :
  forall (i : nat) (results : list CheckResult) (reports : list Progress) (w : World),
    check_loop_reporting R h total i numbers results reports w
    = (Return (results ++ results_from R h numbers (clock w),
               reports ++ reports_over total i results
                            (results_from R h numbers (clock w))),
       snd (check_loop R h numbers results w)).
Proof.
  induction numbers as [|number numbers IH]; intros i results reports w.
  - cbn. now rewrite !app_nil_r.
  - cbn [check_loop_reporting check_loop results_from reports_over]. unfold bind.
    rewrite (surjective_pairing (check_item R h number w)).
    rewrite check_item_eq at 1 2. cbn [fst].
    rewrite IH, check_item_clock. do 2 f_equal.
    apply pair_equal_spec. split.
    + now rewrite <- app_assoc.
    + unfold report. destruct ((i mod 5 =? 0)%nat || (i =? total)%nat);
        [now rewrite <- app_assoc | reflexivity].
Qed.

Lemma reports_over_processed (total : nat) (new : list CheckResult) :
  forall i seen,
    List.map processed (reports_over total i seen new)
    = List.filter (fun i => (i mod 5 =? 0)%nat || (i =? total)%nat)
        (seq i (length new)).
Proof.
  induction new as [|r new IH]; intros i seen; [reflexivity|].
  cbn [reports_over length seq List.filter]. rewrite List.map_app, IH.
  destruct ((i mod 5 =? 0)%nat || (i =? total)%nat); reflexivity.
Qed.

Lemma reports_over_last (total : nat) (new : list CheckResult) :
  forall i seen,
    new <> [] -> (i + length new = S total)%nat ->
    last (reports_over total i seen new) = Some (report total total (seen ++ new)).
Proof.
  induction new as [|r new IH]; intros i seen Hne Hlen; [contradiction|].
  cbn [reports_over]. destruct new as [|r' new].
  - cbn in Hlen. assert (i = total) by lia. subst i.
    rewrite Nat.eqb_refl, orb_true_r. reflexivity.
  - rewrite last_app, (IH (S i) (seen ++ [r])) by (discriminate || (cbn in *; lia)).
    now rewrite <- app_assoc.
Qed.

Lemma count_status_bound (results : list CheckResult) :
  (count_status on_whatsapp results + count_status not_on_whatsapp results
   <= length results)%nat.
Proof.
  apply filter_exclusive_length. intros r Hr.
  apply status_eqb_eq in Hr. now rewrite Hr.
Qed.

Lemma reports_over_bounds (total : nat) (new : list CheckResult) :
  forall i seen,
    i = S (length seen) -> (i + length new = S total)%nat ->
    Forall (fun p => (on_so_far p + off_so_far p <= processed p <= total)%nat /\
                     of_total p = total)
      (reports_over total i seen new).
Proof.
  induction new as [|r new IH]; intros i seen Hi Hlen; [constructor|].
  cbn [reports_over]. apply Forall_app. split.
  - destruct ((i mod 5 =? 0)%nat || (i =? total)%nat); constructor; [|constructor].
    unfold report. cbn [on_so_far off_so_far processed of_total].
    pose proof (count_status_bound (seen ++ [r])) as Hb.
    rewrite length_app in Hb. cbn in Hb, Hlen. split; [lia | reflexivity].
  - apply IH; [rewrite length_app; cbn; lia | cbn in Hlen; lia].
Qed.

(** X21: the loop with its progress messages gives the results and the
    state of the loop without them.  For a batch of n items a message is
    sent after the items 5, 10, 15, ... and after the last one, and after
    no other; the last message says n of n and carries the counts of
    [on_whatsapp] and [not_on_whatsapp] among all results; in every
    message the two counts together do not exceed the number of items
    processed, which does not exceed n. *)
Theorem batch_reports_progress (R : Runtime) (h : Z) (numbers : list (list N))
    (w : World) :
  let n := length numbers in
  exists results reports w',
    check_loop_reporting R h n 1 numbers [] [] w = (Return (results, reports), w') /\
    check_loop R h numbers [] w = (Return results, w') /\
    List.map processed reports = report_points n /\
    (numbers <> [] -> last reports = Some (report n n results)) /\
    Forall (fun p => (on_so_far p + off_so_far p <= processed p <= n)%nat /\
                     of_total p = n) reports.
Proof.
  cbn zeta.
  exists (results_from R h numbers (clock w)),
    (reports_over (length numbers) 1 [] (results_from R h numbers (clock w))),
    (snd (check_loop R h numbers [] w)).
  split; [now rewrite check_loop_reporting_eq|].
  split.
  { rewrite (surjective_pairing (check_loop R h numbers [] w)).
    now rewrite check_loop_eq. }
  split; [|split].
  - rewrite reports_over_processed, results_from_length. reflexivity.
  - intros Hne.
    rewrite reports_over_last; [reflexivity| |rewrite results_from_length; lia].
    destruct numbers; [contradiction | discriminate].
  - apply reports_over_bounds; [reflexivity | rewrite results_from_length; lia].
Qed.

Example reports_of_twelve :
  report_points 12 = [5; 10; 12]%nat /\ report_points 10 = [5; 10]%nat /\
  report_points 3 = [3]%nat /\ report_points 0 = [].
Proof. repeat split. Qed.

(** ** The plus signs of a normalised number *)

Lemma count_plus_filter (R : Runtime) (l : str) :
  count_occ N.eq_dec (List.filter (keep R) l) 43%N = count_occ N.eq_dec l 43%N.
Proof.
  induction l as [|c l IH]; [reflexivity|]. cbn [List.filter].
  destruct (keep R c) eqn:Hk; cbn [count_occ].
  - destruct (N.eq_dec c 43%N); now rewrite IH.
  - destruct (N.eq_dec c 43%N) as [-> | _]; [|exact IH].
    rewrite keep_plus in Hk. discriminate Hk.
Qed.

Lemma count_plus_spaces (ws : str) :
  Forall (fun c => isspace c = true) ws -> count_occ N.eq_dec ws 43%N = 0%nat.
Proof.
  induction 1 as [|c ws Hc _ IH]; [reflexivity|].
  rewrite count_occ_cons_neq; [exact IH|]. intros ->. discriminate Hc.
Qed.

Lemma count_plus_strip (x : str) :
  count_occ N.eq_dec (strip x) 43%N = count_occ N.eq_dec x 43%N.
Proof.
  destruct (lstrip_split x) as (ws1 & Hx & Hws1).
  destruct (rstrip_split (lstrip x)) as (ws2 & Hl & Hws2).
  fold (strip x) in Hl.
  apply (f_equal (fun l => count_occ N.eq_dec l 43%N)) in Hx, Hl.
  rewrite count_occ_app in Hx, Hl.
  rewrite (count_plus_spaces ws1 Hws1) in Hx.
  rewrite (count_plus_spaces ws2 Hws2) in Hl. lia.
Qed.

Lemma startswith_one (c p : N) (s : str) :
  startswith (c :: s) [p] = (c =? p)%N.
Proof. cbn [startswith]. apply andb_true_r. Qed.

Lemma startswith_head (c p : N) (s prefix : str) :
  startswith (c :: s) (p :: prefix) = true -> c = p.
Proof.
  cbn [startswith]. intros H. apply andb_true_iff in H as [H _].
  now apply N.eqb_eq.
Qed.

(** X22: the plus signs of the raw string all stay in the result, which
    holds one more when the trimmed string does not begin with one.  So
    the result is a [+] followed by digits alone only when the raw string
    has no plus sign but a leading one. *)
Theorem plus_signs_are_kept (R : Runtime) (x : str) :
  count_occ N.eq_dec (digits R x) 43%N
  = (count_occ N.eq_dec x 43%N
     + if startswith (strip x) (py "+") then 0 else 1)%nat.
Proof.
  unfold digits. rewrite count_plus_filter, <- (count_plus_strip x).
  destruct (strip x) as [|c s].
  { reflexivity. }
  change (py "0") with [48%N]. change (py "+") with [43%N].
  rewrite !startswith_one.
  destruct (N.eqb_spec c 48%N) as [-> | H0].
  { change (py "+234" ++ List.tl (48%N :: s)) with (43%N :: py "234" ++ s).
    rewrite (count_occ_cons_eq N.eq_dec (py "234" ++ s) (eq_refl 43%N)).
    change (py "234" ++ s) with (50%N :: 51%N :: 52%N :: s).
    rewrite !count_occ_cons_neq by discriminate.
    destruct (N.eqb_spec 48 43); lia. }
  destruct (startswith (c :: s) (py "234")) eqn:H234.
  { apply startswith_head in H234. change (c = 50%N) in H234. subst c.
    change ([43%N] ++ 50%N :: s) with (43%N :: 50%N :: s).
    rewrite (count_occ_cons_eq N.eq_dec (50%N :: s) (eq_refl 43%N)).
    destruct (N.eqb_spec 50 43); lia. }
  destruct (N.eqb_spec c 43%N) as [-> | Hp]; cbn [negb].
  - lia.
  - change ([43%N] ++ c :: s) with (43%N :: c :: s).
    rewrite (count_occ_cons_eq N.eq_dec (c :: s) (eq_refl 43%N)). lia.
Qed.

Example inner_plus_survives :
  clean_phone_number shipped (py "1+2") = Some (py "+1+2") /\
  clean_phone_number shipped (py "+234 (801) +44") = Some (py "+234801+44").
Proof. split; reflexivity. Qed.

(** ** The ledger after a batch *)

Lemma check_loop_step (R : Runtime) (h : Z) (number : list N)
    (numbers : list (list N)) (results : list CheckResult) (w : World) :
  check_loop R h (number :: numbers) results w
  = check_loop R h numbers (results ++ [result_at R h number (clock w)])
      (snd (check_item R h number w)).
Proof.
  cbn [check_loop]. unfold bind.
  rewrite (surjective_pairing (check_item R h number w)).
  now rewrite check_item_eq at 1.
Qed.

Lemma check_loop_lookup (R : Runtime) (h : Z) (key : list N)
    (numbers : list (list N)) :
  forall results w,
    let w' := snd (check_loop R h numbers results w) in
    attempts_of (checked_numbers w' !! key)
    = attempts_of (checked_numbers w !! key)
      + Z.of_nat (occurrences key numbers) /\
    (~ In key numbers -> checked_numbers w' !! key = checked_numbers w !! key) /\
    (In key numbers ->
     exists r, checked_numbers w' !! key = Some r /\ rec_status r = verdict R key).
Proof.
  induction numbers as [|number numbers IH]; intros results w; cbn zeta.
  - cbn. split; [lia|]. split; [reflexivity | intros []].
  - rewrite check_loop_step.
    destruct (IH (results ++ [result_at R h number (clock w)])
                (snd (check_item R h number w))) as (IHa & IHn & IHs).
    cbn zeta in IHa, IHn, IHs. rewrite check_item_store in IHa, IHn.
    unfold occurrences in *. cbn [List.filter].
    destruct (decide (number = key)) as [-> | Hne].
    + rewrite lookup_insert_eq in IHa, IHn.
      rewrite bool_decide_true by reflexivity. cbn [length].
      split.
      { rewrite IHa. cbn [attempts_of upserted attempts].
        rewrite Nat2Z.inj_succ. unfold attempts_of. lia. }
      split; [intros Hn; contradiction Hn; now left|].
      intros _. destruct (decide (key ∈ numbers)) as [Hin | Hin].
      * apply IHs. now apply list_elem_of_In.
      * rewrite IHn by (now rewrite <- list_elem_of_In).
        eexists. split; reflexivity.
    + rewrite lookup_insert_ne in IHa, IHn by exact Hne.
      rewrite bool_decide_false by exact Hne.
      split; [exact IHa|]. split.
      * intros Hn. apply IHn. intros Hin. apply Hn. now right.
      * intros [Heq | Hin]; [contradiction | now apply IHs].
Qed.

(** X23: a batch adds to the attempts of an entry the number of times
    its key occurs among the raw inputs of the batch (an entry that was
    missing counts from 0), and leaves alone the entries whose key does
    not occur. *)
Theorem batch_counts_attempts (R : Runtime) (h : Z) (numbers : list (list N))
    (results : list CheckResult) (w : World) (key : list N) :
  let w' := snd (check_loop R h numbers results w) in
  attempts_of (checked_numbers w' !! key)
  = attempts_of (checked_numbers w !! key)
    + Z.of_nat (occurrences key numbers) /\
  (~ In key numbers -> checked_numbers w' !! key = checked_numbers w !! key).
Proof.
  destruct (check_loop_lookup R h key numbers results w) as (Ha & Hn & _).
  split; assumption.
Qed.

(** X24: after a batch every raw input has an entry in the ledger, and
    the entry carries the status the batch reports for that input. *)
Theorem batch_records_reported_status (R : Runtime) (h : Z)
    (numbers : list (list N)) (w : World) (i : nat) (number : list N) :
  numbers !! i = Some number ->
  exists results res r,
    fst (check_loop R h numbers [] w) = Return results /\
    results !! i = Some res /\
    checked_numbers (snd (check_loop R h numbers [] w)) !! number = Some r /\
    rec_status r = status res.
Proof.
  intros Hi.
  destruct (results_from_lookup R h numbers (clock w) i number Hi) as (k & Hk).
  destruct (check_loop_lookup R h number numbers [] w) as (_ & _ & Hs).
  destruct Hs as (r & Hr & Hst).
  { apply list_elem_of_In, list_elem_of_lookup. now exists i. }
  exists (results_from R h numbers (clock w)), (result_at R h number k), r.
  split; [apply check_loop_eq|]. split; [exact Hk|]. split; [exact Hr | exact Hst].
Qed.

Lemma batch_records_reported_status_witness :
  exists results res r,
    fst (check_loop shipped 24 [py "08023456788"; py "08023456789"] [] (initial None))
    = Return results /\
    results !! 1%nat = Some res /\
    checked_numbers
      (snd (check_loop shipped 24 [py "08023456788"; py "08023456789"] []
              (initial None))) !! py "08023456789" = Some r /\
    rec_status r = status res.
Proof.
  apply (batch_records_reported_status shipped 24
           [py "08023456788"; py "08023456789"] (initial None) 1
           (py "08023456789")).
  reflexivity.
Defined.
